(** * js-joke-teller: the VoiceRSS speech client and the joke button handler

    A shallow embedding of [src/js/script.js].  The file has two parts: the
    click handler of the joke button ([fetchJoke], [handleJokeButtonClick])
    and the VoiceRSS SDK object ([speech], [_validate], [_request],
    [_buildRequest], [_detectCodec], [_getXHR]).

    JavaScript values are a small tagged union, strings are byte strings
    read as UTF-8 (an unpaired surrogate in its three-byte form), and the
    browser (DOM elements, console, alerts, network,
    the [Audio] capability probe) is an explicit [World] threaded through a
    state-and-exception monad. *)

From Stdlib Require Import Bool Ascii String List ZArith NArith Lia.
From Stdlib Require Import DecimalString.
Import ListNotations.

Local Open Scope string_scope.
Local Open Scope Z_scope.

(* ================================================================== *)
(** ** JavaScript values *)

(** The values a settings field can hold.  [VNum] carries an integral
    Number; the model of [ToString] below is exact on the safe integers
    (see [is_safe_integer]). *)
Inductive value : Type :=
| VUndefined
| VNull
| VBool (b : bool)
| VNum (n : Z)
| VStr (s : string).

(** Errors thrown by the program: [new Error(msg)], the [TypeError] the
    runtime raises on a property access or call that cannot be done, and
    the [URIError] of [encodeURIComponent]. *)
Inductive exn : Type :=
| Error (msg : string)
| TypeError (msg : string)
| URIError (msg : string).

Definition message (e : exn) : string :=
  match e with Error m => m | TypeError m => m | URIError m => m end.

(** [Number.isSafeInteger]: magnitude at most 2^53 - 1. *)
Definition is_safe_integer (n : Z) : Prop := Z.abs n <= 2 ^ 53 - 1.

(** [Number::toString] on an integral value: its decimal digits, with a
    leading minus sign when negative.  This is exact on the safe integers;
    from 10^21 on JavaScript prints an exponent, so a statement that shows
    the digits of a number takes it in the safe range. *)
Definition number_to_string (n : Z) : string :=
  NilZero.string_of_int (Z.to_int n).

(** The abstract operation [ToString]. *)
Definition ToString (v : value) : string :=
  match v with
  | VUndefined => "undefined"
  | VNull => "null"
  | VBool true => "true"
  | VBool false => "false"
  | VNum n => number_to_string n
  | VStr s => s
  end.

(** [ToBoolean]: [undefined], [null], [false], [0] and the empty string are
    falsy. *)
Definition truthy (v : value) : bool :=
  match v with
  | VUndefined | VNull => false
  | VBool b => b
  | VNum n => negb (n =? 0)
  | VStr s => negb (s =? "")%string
  end.

(** [a || b]. *)
Definition js_or (a b : value) : value := if truthy a then a else b.

(* ================================================================== *)
(** ** String built-ins *)

Definition is_upper (ch : ascii) : bool :=
  let n := N_of_ascii ch in ((65 <=? n) && (n <=? 90))%N.

Definition is_lower (ch : ascii) : bool :=
  let n := N_of_ascii ch in ((97 <=? n) && (n <=? 122))%N.

Definition is_digit (ch : ascii) : bool :=
  let n := N_of_ascii ch in ((48 <=? n) && (n <=? 57))%N.

Definition lower_char (ch : ascii) : ascii :=
  if is_upper ch then ascii_of_N (N_of_ascii ch + 32) else ch.

(** [String.prototype.toLowerCase], on the ASCII letters.  (The only
    non-ASCII code points whose lower case contains an ASCII letter map to
    [k] and [i], which occur in none of the strings the program compares
    with.) *)
Fixpoint lower (s : string) : string :=
  match s with
  | EmptyString => EmptyString
  | String ch t => String (lower_char ch) (lower t)
  end.

(** [v.toLowerCase()]: only strings have the method. *)
Definition toLowerCase (v : value) : exn + string :=
  match v with
  | VStr s => inr (lower s)
  | VUndefined | VNull =>
      inl (TypeError "Cannot read properties of undefined (reading 'toLowerCase')")
  | VBool _ | VNum _ => inl (TypeError "toLowerCase is not a function")
  end.

Fixpoint drop (n : nat) (s : string) : string :=
  match n, s with
  | O, _ => s
  | S n', String _ t => drop n' t
  | S _, EmptyString => EmptyString
  end.

(** [s.replace(pat, rep)] with a string pattern: the first occurrence
    only. *)
Fixpoint replace (pat rep s : string) : string :=
  if String.prefix pat s then rep ++ drop (String.length pat) s
  else match s with
       | EmptyString => EmptyString
       | String ch t => String ch (replace pat rep t)
       end.

Fixpoint indexOf_from (pat s : string) (i : Z) : Z :=
  if String.prefix pat s then i
  else match s with
       | EmptyString => -1
       | String _ t => indexOf_from pat t (i + 1)
       end.

(** [s.indexOf(pat)]. *)
Definition indexOf (s pat : string) : Z := indexOf_from pat s 0.

(* ------------------------------------------------------------------ *)
(** *** [encodeURIComponent] *)

Fixpoint mem_char (ch : ascii) (s : string) : bool :=
  match s with
  | EmptyString => false
  | String x t => Ascii.eqb ch x || mem_char ch t
  end.

(** The characters [encodeURIComponent] leaves alone:
    [A-Z a-z 0-9 - _ . ! ~ * ' ( )]. *)
Definition unreserved (ch : ascii) : bool :=
  is_upper ch || is_lower ch || is_digit ch || mem_char ch "-_.!~*'()".

Definition hex_digit (n : N) : ascii :=
  if (n <? 10)%N then ascii_of_N (48 + n) else ascii_of_N (55 + n).

Definition pct_encode_char (ch : ascii) : string :=
  if unreserved ch then String ch EmptyString
  else
    let n := N_of_ascii ch in
    String "%" (String (hex_digit (n / 16)) (String (hex_digit (n mod 16)) EmptyString)).

(** Every byte of the UTF-8 form that is not unreserved becomes [%XX]. *)
Fixpoint pct_encode (s : string) : string :=
  match s with
  | EmptyString => EmptyString
  | String ch t => pct_encode_char ch ++ pct_encode t
  end.

(** Strings are held as bytes: the UTF-8 form of the text, in which an
    unpaired surrogate code unit, which a JavaScript string may hold, is
    written as the three bytes [ED], [A0]-[BF], [80]-[BF].  A surrogate
    pair is written as the four bytes of its code point, so the byte [ED]
    followed by a byte in [A0]-[BF] always marks an unpaired surrogate. *)
Definition surrogate_at (a b : ascii) : bool :=
  ((N_of_ascii a =? 237) && (160 <=? N_of_ascii b) && (N_of_ascii b <=? 191))%N.

(** [String.prototype.isWellFormed]: the text holds no unpaired
    surrogate. *)
Fixpoint well_formed (s : string) : bool :=
  match s with
  | EmptyString => true
  | String a t =>
      match t with
      | EmptyString => true
      | String b _ => negb (surrogate_at a b) && well_formed t
      end
  end.

(** [encodeURIComponent(v)]: [ToString], then percent-encoding of the
    UTF-8 bytes; on a text with an unpaired surrogate the built-in throws
    [URIError]. *)
Definition encodeURIComponent (v : value) : exn + string :=
  let text := ToString v in
  if well_formed text then inr (pct_encode text)
  else inl (URIError "URI malformed").

(* ================================================================== *)
(** ** The browser: world state, environment, effects *)

(** An HTTP request as it leaves the page. *)
Record Request : Type := mkRequest {
  req_method : string;
  req_url : string;
  req_headers : list (string * string);
  req_body : option string
}.

(** The element with id ["audio"]: its [src] attribute and the number of
    [play()] calls made on it. *)
Record AudioElement : Type := mkAudio {
  audio_src : string;
  play_count : nat
}.

(** Everything the script can observe or change. *)
Record World : Type := mkWorld {
  disabled : bool;                 (* jokeButton.disabled *)
  textContent : string;            (* jokeTextElement.textContent *)
  audio : option AudioElement;     (* document.getElementById("audio") *)
  alerts : list string;            (* alert(...) dialogs shown *)
  console : list (list string);    (* console.error(...) calls *)
  network : list Request;          (* requests issued, oldest first *)
  probes : list string             (* canPlayType(...) queries, oldest first *)
}.

(** The ways [_getXHR] tries to obtain a request object. *)
Inductive XhrCtor : Type :=
| XMLHttpRequest
| ActiveXObject (progid : string).

(** What a fetch of the joke API settles to: the [joke] property of the
    parsed JSON, or a rejection (network failure, body that is not JSON). *)
Inductive FetchOutcome : Type :=
| Fulfilled (joke : value)
| Rejected (reason : exn).

(** The answers of the runtime, fixed for one run. *)
Record Env : Type := mkEnv {
  canPlayType : string -> string;      (* "", "maybe", "probably" (old engines: "no") *)
  constructible : XhrCtor -> bool;     (* does [new] on this constructor succeed *)
  play_rejects : option string;        (* reason, when the play() promise rejects *)
  joke_api : FetchOutcome
}.

(** State and exception monad over [World]. *)
Definition M (A : Type) : Type := World -> World * (exn + A).

Definition ret {A} (a : A) : M A := fun w => (w, inr a).

Definition throw {A} (e : exn) : M A := fun w => (w, inl e).

Definition bind {A B} (m : M A) (k : A -> M B) : M B :=
  fun w =>
    match m w with
    | (w', inr a) => k a w'
    | (w', inl e) => (w', inl e)
    end.

Notation "x <- m ;; k" := (bind m (fun x => k))
  (at level 61, m at next level, right associativity).
Notation "m ;; k" := (bind m (fun _ => k))
  (at level 61, right associativity).

(** [try { m } catch (e) { h e }]. *)
Definition try_catch {A} (m : M A) (h : exn -> M A) : M A :=
  fun w =>
    match m w with
    | (w', inl e) => h e w'
    | (w', inr a) => (w', inr a)
    end.

(** [try { m } finally { fin }]: [fin] runs on both exits; an exception of
    [fin] replaces the outcome of [m]. *)
Definition try_finally {A} (m : M A) (fin : M unit) : M A :=
  fun w =>
    let (w', res) := m w in
    match fin w' with
    | (w'', inl e) => (w'', inl e)
    | (w'', inr _) => (w'', res)
    end.

(** Lifting a pure fallible step. *)
Definition lift {A} (x : exn + A) : M A :=
  match x with inl e => throw e | inr a => ret a end.

(** *** Primitive effects *)

Definition set_disabled (b : bool) : M unit := fun w =>
  (mkWorld b (textContent w) (audio w) (alerts w) (console w) (network w) (probes w), inr tt).

(** Assignment to [textContent]: [null] and [undefined] give the empty
    text, anything else its string form. *)
Definition text_of (v : value) : string :=
  match v with VUndefined | VNull => "" | _ => ToString v end.

Definition set_textContent (v : value) : M unit := fun w =>
  (mkWorld (disabled w) (text_of v) (audio w) (alerts w) (console w) (network w) (probes w),
   inr tt).

Definition alert (msg : string) : M unit := fun w =>
  (mkWorld (disabled w) (textContent w) (audio w) (alerts w ++ [msg]) (console w)
     (network w) (probes w), inr tt).

Definition console_error (args : list string) : M unit := fun w =>
  (mkWorld (disabled w) (textContent w) (audio w) (alerts w) (console w ++ [args])
     (network w) (probes w), inr tt).

Definition send_request (rq : Request) : M unit := fun w =>
  (mkWorld (disabled w) (textContent w) (audio w) (alerts w) (console w)
     (network w ++ [rq]) (probes w), inr tt).

(** [audio.canPlayType(mime)] on a fresh [Audio] object; the [Audio]
    constructor itself is taken to exist. *)
Definition probe (env : Env) (mime : string) : M string := fun w =>
  (mkWorld (disabled w) (textContent w) (audio w) (alerts w) (console w)
     (network w) (probes w ++ [mime]), inr (canPlayType env mime)).

Definition getElementById_audio : M (option AudioElement) := fun w =>
  (w, inr (audio w)).

(** [audioElement.src = s]. *)
Definition set_audio_src (s : string) : M unit := fun w =>
  (mkWorld (disabled w) (textContent w)
     (option_map (fun a => mkAudio s (play_count a)) (audio w))
     (alerts w) (console w) (network w) (probes w), inr tt).

(** [audioElement.play().catch(err => console.error("Audio playback
    failed:", err))]: the call is counted; a rejected promise only leaves a
    console entry. *)
Definition audio_play (env : Env) : M unit := fun w =>
  let w1 := mkWorld (disabled w) (textContent w)
              (option_map (fun a => mkAudio (audio_src a) (S (play_count a))) (audio w))
              (alerts w) (console w) (network w) (probes w) in
  match play_rejects env with
  | Some err => console_error ["Audio playback failed:"; err] w1
  | None => (w1, inr tt)
  end.

(* ================================================================== *)
(** ** The VoiceRSS object *)

Module VoiceRSS.

(** The [settings] object: each property holds a value, [VUndefined] when
    the property is absent. *)
Record Settings : Type := mkSettings {
  key : value;
  src : value;
  hl : value;
  r : value;
  c : value;
  f : value;
  ssml : value
}.

(** Reading a property of [settings], which itself may be [undefined]. *)
Definition prop (settings : option Settings) (field : Settings -> value) : M value :=
  match settings with
  | Some s => ret (field s)
  | None => throw (TypeError "Cannot read properties of undefined")
  end.

(** The condition [settings.c && settings.c.toLowerCase() !== "auto"]. *)
Definition explicit_codec (codec : value) : M bool :=
  if truthy codec then
    lc <- lift (toLowerCase codec) ;;
    ret (negb (lc =? "auto")%string)
  else ret false.

(** The test [audio.canPlayType(mime).replace("no", "")], as a value. *)
Definition can_play (env : Env) (mime : string) : M value :=
  answer <- probe env mime ;;
  ret (VStr (replace "no" "" answer)).

(** [_validate(settings)] *)
Definition _validate (env : Env) (settings : option Settings) : M unit :=
  match settings with
  | None => throw (Error "The settings are undefined")
  | Some s =>
    if negb (truthy (key s)) then throw (Error "The API key is undefined") else
    if negb (truthy (src s)) then throw (Error "The text is undefined") else
    if negb (truthy (hl s)) then throw (Error "The language is undefined") else
    explicit <- explicit_codec (c s) ;;
    if explicit : bool then
      lc <- lift (toLowerCase (c s)) ;;
      codecSupported <-
        (if (lc =? "mp3")%string then can_play env "audio/mpeg"
         else if (lc =? "wav")%string then can_play env "audio/wav"
         else if (lc =? "aac")%string then can_play env "audio/aac"
         else if (lc =? "ogg")%string then can_play env "audio/ogg"
         else if (lc =? "caf")%string then can_play env "audio/x-caf"
         else ret (VBool false)) ;;
      if negb (truthy codecSupported) then
        throw (Error ("The browser does not support the audio codec " ++ ToString (c s)))
      else ret tt
    else ret tt
  end.

(** [_detectCodec()] *)
Definition _detectCodec (env : Env) : M string :=
  mp3 <- can_play env "audio/mpeg" ;;
  if truthy mp3 then ret "mp3" else
  wav <- can_play env "audio/wav" ;;
  if truthy wav then ret "wav" else
  aac <- can_play env "audio/aac" ;;
  if truthy aac then ret "aac" else
  ogg <- can_play env "audio/ogg" ;;
  if truthy ogg then ret "ogg" else
  caf <- can_play env "audio/x-caf" ;;
  if truthy caf then ret "caf" else
  ret "".

(** [_buildRequest(settings)] *)
Definition _buildRequest (env : Env) (settings : option Settings) : M string :=
  sc <- prop settings c ;;
  explicit <- explicit_codec sc ;;
  codec <- (if explicit : bool then ret sc
            else detected <- _detectCodec env ;; ret (VStr detected)) ;;
  skey <- prop settings key ;;
  ekey <- lift (encodeURIComponent (js_or skey (VStr ""))) ;;
  ssrc <- prop settings src ;;
  esrc <- lift (encodeURIComponent (js_or ssrc (VStr ""))) ;;
  shl <- prop settings hl ;;
  ehl <- lift (encodeURIComponent (js_or shl (VStr ""))) ;;
  sr <- prop settings r ;;
  er <- lift (encodeURIComponent (js_or sr (VStr ""))) ;;
  ec <- lift (encodeURIComponent (js_or codec (VStr ""))) ;;
  sf <- prop settings f ;;
  ef <- lift (encodeURIComponent (js_or sf (VStr ""))) ;;
  sssml <- prop settings ssml ;;
  essml <- lift (encodeURIComponent (js_or sssml (VStr ""))) ;;
  ret ("key=" ++ ekey ++ "&src=" ++ esrc ++ "&hl=" ++ ehl ++ "&r=" ++ er
       ++ "&c=" ++ ec ++ "&f=" ++ ef ++ "&ssml=" ++ essml ++ "&b64=true").

(** [new] on one of the request constructors. *)
Definition new_xhr (env : Env) (k : XhrCtor) : M XhrCtor :=
  if constructible env k then ret k
  else throw (TypeError "not a constructor").

(** [_getXHR()] *)
Definition _getXHR (env : Env) : M XhrCtor :=
  try_catch (new_xhr env XMLHttpRequest) (fun _ =>
  try_catch (new_xhr env (ActiveXObject "Msxml3.XMLHTTP")) (fun _ =>
  try_catch (new_xhr env (ActiveXObject "Msxml2.XMLHTTP.6.0")) (fun _ =>
  try_catch (new_xhr env (ActiveXObject "Msxml2.XMLHTTP.3.0")) (fun _ =>
  try_catch (new_xhr env (ActiveXObject "Msxml2.XMLHTTP")) (fun _ =>
  try_catch (new_xhr env (ActiveXObject "Microsoft.XMLHTTP")) (fun _ =>
  throw (Error "The browser does not support HTTP request"))))))).

(** The fields of the request object the completion callback reads. *)
Record XhrState : Type := mkXhrState {
  readyState : Z;
  status : Z;
  responseText : string
}.

(** The function assigned to [xhr.onreadystatechange] in [_request]; the
    browser calls it on every change of [xhr], outside any caller of
    [speech]. *)
Definition onreadystatechange (env : Env) (xhr : XhrState) : M unit :=
  if readyState xhr =? 4 then
    if status xhr =? 200 then
      (if indexOf (responseText xhr) "ERROR" =? 0
       then throw (Error (responseText xhr)) else ret tt) ;;
      audioElement <- getElementById_audio ;;
      match audioElement with
      | Some _ =>
          set_audio_src (responseText xhr) ;;
          audio_play env
      | None => console_error ["Audio element not found in the DOM."]
      end
    else console_error ["HTTP request failed with status"; number_to_string (status xhr)]
  else ret tt.

(** [_request(settings)]: [open], [setRequestHeader] and [send] on the
    object [_getXHR] returned put one request on the network. *)
Definition _request (env : Env) (settings : option Settings) : M unit :=
  requestBody <- _buildRequest env settings ;;
  xhr <- _getXHR env ;;
  send_request
    (mkRequest "POST" "https://api.voicerss.org/"
       [("Content-Type", "application/x-www-form-urlencoded; charset=UTF-8")]
       (Some requestBody)).

(** [speech(settings)] *)
Definition speech (env : Env) (settings : option Settings) : M unit :=
  _validate env settings ;;
  _request env settings.

End VoiceRSS.

(* ================================================================== *)
(** ** The joke button *)

(** [fetch(url, {headers})], [response.json()] and the read of [data.joke]:
    one GET leaves the page, and the environment decides how it settles. *)
Definition fetch_joke_field (env : Env) (url : string)
    (headers : list (string * string)) : M value :=
  send_request (mkRequest "GET" url headers None) ;;
  match joke_api env with
  | Fulfilled joke => ret joke
  | Rejected reason => throw reason
  end.

(** [fetchJoke()] *)
Definition fetchJoke (env : Env) : M value :=
  try_catch
    (fetch_joke_field env "https://icanhazdadjoke.com/" [("Accept", "application/json")])
    (fun error =>
       console_error ["Error fetching joke:"; message error] ;;
       throw (Error "Failed to fetch a joke.")).

(** The settings literal [handleJokeButtonClick] passes to
    [VoiceRSS.speech]. *)
Definition joke_settings (joke : value) : VoiceRSS.Settings :=
  VoiceRSS.mkSettings
    (VStr "YOUR API") joke (VStr "en-us") (VNum 0) (VStr "mp3")
    (VStr "44khz_16bit_stereo") VUndefined.

(** [handleJokeButtonClick()], one full cycle: the awaited fetch is taken
    at its settled outcome. *)
Definition handleJokeButtonClick (env : Env) : M unit :=
  try_finally
    (try_catch
       (set_disabled true ;;
        set_textContent (VStr "Loading joke...") ;;
        joke <- fetchJoke env ;;
        set_textContent joke ;;
        VoiceRSS.speech env (Some (joke_settings joke)))
       (fun error =>
          console_error ["Error processing the joke:"; message error] ;;
          alert "Sorry, we couldn't fetch a joke. Please try again later." ;;
          set_textContent (VStr "")))
    (set_disabled false).

(* ================================================================== *)
(** ** The request body as the receiving end reads it *)

(** [s.split(sep)] for a one-character separator. *)
Fixpoint split_on (sep : ascii) (s : string) : list string :=
  match s with
  | EmptyString => [EmptyString]
  | String ch t =>
      if Ascii.eqb ch sep then EmptyString :: split_on sep t
      else match split_on sep t with
           | h :: rest => String ch h :: rest
           | [] => [String ch EmptyString]
           end
  end.

(** The part of a [name=value] segment before the first [=]. *)
Fixpoint name_of (seg : string) : string :=
  match seg with
  | EmptyString => EmptyString
  | String ch t => if Ascii.eqb ch "=" then EmptyString else String ch (name_of t)
  end.

(** The part of a [name=value] segment after the first [=]. *)
Fixpoint value_of (seg : string) : string :=
  match seg with
  | EmptyString => EmptyString
  | String ch t => if Ascii.eqb ch "=" then t else value_of t
  end.

(** An [application/x-www-form-urlencoded] body, cut at [&] and [=]; the
    values are still percent-encoded. *)
Definition parse_form (body : string) : list (string * string) :=
  map (fun seg => (name_of seg, value_of seg)) (split_on "&" body).

Definition hex_value (ch : ascii) : option N :=
  let n := N_of_ascii ch in
  if is_digit ch then Some (n - 48)%N
  else if ((65 <=? n) && (n <=? 70))%N then Some (n - 55)%N
  else if ((97 <=? n) && (n <=? 102))%N then Some (n - 87)%N
  else None.

(** Percent-decoding of a form value: [%XX] is the byte [XX], [+] a space. *)
Fixpoint pct_decode (s : string) : option string :=
  match s with
  | EmptyString => Some EmptyString
  | String ch t =>
      if Ascii.eqb ch "%" then
        match t with
        | String hi (String lo t') =>
            match hex_value hi, hex_value lo with
            | Some a, Some b =>
                option_map (String (ascii_of_N (16 * a + b))) (pct_decode t')
            | _, _ => None
            end
        | _ => None
        end
      else option_map (String (if Ascii.eqb ch "+" then " "%char else ch)) (pct_decode t)
  end.

(** The raw value of the first field called [name]. *)
Fixpoint field (name : string) (form : list (string * string)) : option string :=
  match form with
  | [] => None
  | (n, v) :: rest => if (n =? name)%string then Some v else field name rest
  end.

(* ================================================================== *)
(** ** Vocabulary of the specification *)

(** A required field that is absent or empty. *)
Definition absent_or_empty (v : value) : Prop := v = VUndefined \/ v = VStr "".

(** The error classes of the specification, read off the thrown messages. *)
Definition InvalidRequest (e : exn) : Prop :=
  e = Error "The API key is undefined" \/
  e = Error "The text is undefined" \/
  e = Error "The language is undefined".

Definition UnsupportedCodec (e : exn) : Prop :=
  exists codec, e = Error ("The browser does not support the audio codec " ++ codec).

(** The MIME type probed for a codec name, as the [switch] of [_validate]
    and the chain of [_detectCodec] pair them. *)
Definition codec_mime (codec : string) : option string :=
  if (codec =? "mp3")%string then Some "audio/mpeg"
  else if (codec =? "wav")%string then Some "audio/wav"
  else if (codec =? "aac")%string then Some "audio/aac"
  else if (codec =? "ogg")%string then Some "audio/ogg"
  else if (codec =? "caf")%string then Some "audio/x-caf"
  else None.

(** The capability probe [supports(codec) -> bool] of the specification:
    the answer of [canPlayType] for the codec's MIME type, with the legacy
    answer ["no"] counted as a refusal. *)
Definition supports (env : Env) (codec : string) : bool :=
  match codec_mime (lower codec) with
  | Some mime => truthy (VStr (replace "no" "" (canPlayType env mime)))
  | None => false
  end.

(** The fixed priority order of automatic codec selection. *)
Definition priority : list string := ["mp3"; "wav"; "aac"; "ogg"; "caf"].

(** In the specification's words: the first codec of the priority order the
    probe reports as supported, or the empty string when there is none. *)
Definition spec_first_supported (env : Env) : string :=
  match find (supports env) priority with
  | Some codec => codec
  | None => ""
  end.

(** A codec field that asks for a concrete codec: a non-empty string other
    than ["auto"] in any letter case. *)
Definition explicit_name (v : value) (name : string) : Prop :=
  v = VStr name /\ name <> "" /\ lower name <> "auto".

(** A codec field that leaves the choice to the client: omitted, or
    ["auto"] in any letter case. *)
Definition auto_or_omitted (v : value) : Prop :=
  v = VUndefined \/ exists name, v = VStr name /\ lower name = "auto".

(** The constructors [_getXHR] tries, in its order. *)
Definition xhr_ctors : list XhrCtor :=
  [XMLHttpRequest; ActiveXObject "Msxml3.XMLHTTP"; ActiveXObject "Msxml2.XMLHTTP.6.0";
   ActiveXObject "Msxml2.XMLHTTP.3.0"; ActiveXObject "Msxml2.XMLHTTP";
   ActiveXObject "Microsoft.XMLHTTP"].

(** Some request object can be created. *)
Definition xhr_available (env : Env) : bool := existsb (constructible env) xhr_ctors.

(** The POST that [_request] sends for a body. *)
Definition speech_post (body : string) : Request :=
  mkRequest "POST" "https://api.voicerss.org/"
    [("Content-Type", "application/x-www-form-urlencoded; charset=UTF-8")]
    (Some body).

(** The world with further capability queries recorded and nothing else
    changed. *)
Definition add_probes (ps : list string) (w : World) : World :=
  mkWorld (disabled w) (textContent w) (audio w) (alerts w) (console w) (network w)
    (probes w ++ ps).


(** Every character of [s] satisfies [p]. *)
Fixpoint all_chars (p : ascii -> bool) (s : string) : bool :=
  match s with
  | EmptyString => true
  | String ch t => p ch && all_chars p t
  end.

(** The percent-decoder undoes [pct_encode_char] on the byte [ch]. *)
Definition decodes_back (ch : ascii) : bool :=
  if unreserved ch then negb (Ascii.eqb ch "%") && negb (Ascii.eqb ch "+")
  else
    match hex_value (hex_digit (N_of_ascii ch / 16)),
          hex_value (hex_digit (N_of_ascii ch mod 16)) with
    | Some a, Some b => Ascii.eqb (ascii_of_N (16 * a + b)) ch
    | _, _ => false
    end.

(** The text a field contributes to the body: empty for a falsy value. *)
Definition field_text (v : value) : string := ToString (js_or v (VStr "")).

(** The string [_buildRequest] assembles once the codec is decided and
    every text has been encoded. *)
Definition form_body (s : VoiceRSS.Settings) (codec : string) : string :=
  "key=" ++ pct_encode (field_text (VoiceRSS.key s))
  ++ "&src=" ++ pct_encode (field_text (VoiceRSS.src s))
  ++ "&hl=" ++ pct_encode (field_text (VoiceRSS.hl s))
  ++ "&r=" ++ pct_encode (field_text (VoiceRSS.r s))
  ++ "&c=" ++ pct_encode codec
  ++ "&f=" ++ pct_encode (field_text (VoiceRSS.f s))
  ++ "&ssml=" ++ pct_encode (field_text (VoiceRSS.ssml s))
  ++ "&b64=true".

(** A field value [encodeURIComponent] accepts: its text holds no unpaired
    surrogate. *)
Definition encodable (v : value) : bool := well_formed (field_text v).

(** The six fields copied from the settings can all be encoded. *)
Definition texts_encodable (s : VoiceRSS.Settings) : bool :=
  encodable (VoiceRSS.key s) && encodable (VoiceRSS.src s) && encodable (VoiceRSS.hl s)
  && encodable (VoiceRSS.r s) && encodable (VoiceRSS.f s) && encodable (VoiceRSS.ssml s).

(** A value whose [ToString] the model gives exactly: any value but a
    number outside the safe integers. *)
Definition safe_value (v : value) : Prop :=
  match v with VNum n => is_safe_integer n | _ => True end.

(** Every field copied from the settings is such a value. *)
Definition safe_settings (s : VoiceRSS.Settings) : Prop :=
  safe_value (VoiceRSS.key s) /\ safe_value (VoiceRSS.src s) /\
  safe_value (VoiceRSS.hl s) /\ safe_value (VoiceRSS.r s) /\
  safe_value (VoiceRSS.f s) /\ safe_value (VoiceRSS.ssml s).

(** The three required fields are all truthy. *)
Definition required_ok (s : VoiceRSS.Settings) : bool :=
  truthy (VoiceRSS.key s) && truthy (VoiceRSS.src s) && truthy (VoiceRSS.hl s).

(** What the codec field asks for: [Some (Some name)] for a concrete codec,
    [Some None] for automatic selection (a falsy value or ["auto"]), [None]
    for a truthy value that is not a string, on which
    [settings.c.toLowerCase()] raises a [TypeError]. *)
Definition codec_request (v : value) : option (option string) :=
  match v with
  | VStr name =>
      if (name =? "")%string || (lower name =? "auto")%string then Some None
      else Some (Some name)
  | _ => if truthy v then None else Some None
  end.

(** The codec the request carries: the requested one, or the outcome of
    automatic selection. *)
Definition decided_codec (env : Env) (s : VoiceRSS.Settings) : string :=
  match codec_request (VoiceRSS.c s) with
  | Some (Some name) => name
  | _ => spec_first_supported env
  end.

(** The world with one more request on the network and nothing else
    changed. *)
Definition add_request (rq : Request) (w : World) : World :=
  mkWorld (disabled w) (textContent w) (audio w) (alerts w) (console w)
    (network w ++ [rq]) (probes w).

(** Every text of the request can be encoded: the six fields of the
    settings and the decided codec. *)
Definition body_encodable (env : Env) (s : VoiceRSS.Settings) : bool :=
  texts_encodable s && well_formed (decided_codec env s).

(** The conditions under which the synchronous part of [speech] runs to
    its end: required fields present, the codec field well-typed and, when
    it names a codec, supported, every text encodable, and a request object
    to be had. *)
Definition speech_ok (env : Env) (s : VoiceRSS.Settings) : bool :=
  required_ok s
  && match codec_request (VoiceRSS.c s) with
     | Some (Some name) => supports env name
     | Some None => true
     | None => false
     end
  && body_encodable env s
  && xhr_available env.

(** The notice [handleJokeButtonClick] shows from its [catch] block. *)
Definition sorry_notice : string :=
  "Sorry, we couldn't fetch a joke. Please try again later.".

(* ================================================================== *)
(** ** Sample pages, browsers and settings *)

(** A freshly loaded page: button enabled, no text, a silent audio element. *)
Definition page0 : World := mkWorld false "" (Some (mkAudio "" 0)) [] [] [] [].

(** A browser that gives every [canPlayType] query the same answer, with
    or without a usable request constructor, whose joke fetch succeeds. *)
Definition browser (answer : string) (xhr : bool) : Env :=
  mkEnv (fun _ => answer) (fun _ => xhr) None
    (Fulfilled (VStr "Why did the chicken cross the road?")).

(** Settings that name the codec [mp3] but carry no API key. *)
Definition settings_no_key : VoiceRSS.Settings :=
  VoiceRSS.mkSettings VUndefined (VStr "Hello") (VStr "en-us") (VNum 0) (VStr "mp3")
    VUndefined VUndefined.

(** Settings that name the codec [flac] but carry no language. *)
Definition settings_flac_no_hl : VoiceRSS.Settings :=
  VoiceRSS.mkSettings (VStr "k") (VStr "Hello") (VStr "") (VNum 0) (VStr "flac")
    VUndefined VUndefined.

(** A text with an unpaired surrogate: [a], then the code unit U+D83D on
    its own, then [b]. *)
Definition lone_surrogate_text : string :=
  String "a" (String (ascii_of_N 237) (String (ascii_of_N 160) (String (ascii_of_N 189)
    (String "b" EmptyString)))).

(** Complete settings whose text holds the unpaired surrogate. *)
Definition settings_surrogate : VoiceRSS.Settings :=
  VoiceRSS.mkSettings (VStr "k") (VStr lone_surrogate_text) (VStr "en-us") (VNum 0)
    (VStr "mp3") VUndefined VUndefined.

(** Complete settings with a codec name of choice. *)
Definition settings_with_codec (codec : value) : VoiceRSS.Settings :=
  VoiceRSS.mkSettings (VStr "k") (VStr "Hello") (VStr "en-us") (VNum 0) codec
    VUndefined VUndefined.

(* ================================================================== *)
(** ** Vocabulary for the remaining behaviour *)

(** The MIME types [_detectCodec] asks about, in its order. *)
Definition priority_mimes : list string :=
  ["audio/mpeg"; "audio/wav"; "audio/aac"; "audio/ogg"; "audio/x-caf"].

(** Occurrences of a character in a string. *)
Fixpoint count_char (ch : ascii) (s : string) : nat :=
  match s with
  | EmptyString => O
  | String x t => if Ascii.eqb x ch then S (count_char ch t) else count_char ch t
  end.

(** The characters a form body is made of: the unreserved ones, the
    percent sign of an escape, and the separators [&] and [=]. *)
Definition body_char (ch : ascii) : bool := unreserved ch || mem_char ch "%&=".

(** The request [fetchJoke] makes. *)
Definition joke_get : Request :=
  mkRequest "GET" "https://icanhazdadjoke.com/" [("Accept", "application/json")] None.

(** The world with one more console entry and nothing else changed. *)
Definition add_console (entry : list string) (w : World) : World :=
  mkWorld (disabled w) (textContent w) (audio w) (alerts w) (console w ++ [entry])
    (network w) (probes w).

(** A codec field on which [toLowerCase] cannot be called: a truthy value
    that is not a string. *)
Definition not_a_string (v : value) : Prop :=
  v = VBool true \/ exists n, v = VNum n /\ n <> 0.

(** A browser in which only the last of the request constructors works. *)
Definition legacy_browser : Env :=
  mkEnv (fun _ => "maybe")
    (fun k => match k with
              | ActiveXObject progid => (progid =? "Microsoft.XMLHTTP")%string
              | XMLHttpRequest => false
              end)
    None (Rejected (TypeError "Failed to fetch")).

(** A browser that plays only ogg and caf, and answers ["no"] for wav. *)
Definition ogg_browser : Env :=
  mkEnv (fun mime => if (mime =? "audio/ogg")%string then "maybe"
                     else if (mime =? "audio/x-caf")%string then "probably"
                     else if (mime =? "audio/wav")%string then "no"
                     else "")
    (fun _ => true) (Some "NotAllowedError") (Fulfilled (VStr "Knock & knock = who?")).

(** A browser that plays everything and gets a joke with separators in
    it. *)
Definition mp3_browser : Env :=
  mkEnv (fun _ => "maybe") (fun _ => true) None (Fulfilled (VStr "Knock & knock = who?")).

(* ================================================================== *)
(** * Properties *)

(** ** Strings *)

Ltac each_byte ch := destruct ch as [[] [] [] [] [] [] [] []].

Lemma mem_char_app ch a b : mem_char ch (a ++ b) = mem_char ch a || mem_char ch b.
Proof.
  induction a as [|x a IH]; simpl; [reflexivity|].
  now rewrite IH, orb_assoc.
Qed.

Lemma pct_encode_char_no_amp ch : mem_char "&" (pct_encode_char ch) = false.
Proof. each_byte ch; vm_compute; reflexivity. Qed.

Lemma pct_encode_no_amp s : mem_char "&" (pct_encode s) = false.
Proof.
  induction s as [|ch s IH]; simpl; [reflexivity|].
  now rewrite mem_char_app, pct_encode_char_no_amp, IH.
Qed.

Lemma decodes_back_all ch : decodes_back ch = true.
Proof. each_byte ch; vm_compute; reflexivity. Qed.

Lemma pct_encode_char_decode ch rest :
  pct_decode (pct_encode_char ch ++ rest) = option_map (String ch) (pct_decode rest).
Proof.
  pose proof (decodes_back_all ch) as H. unfold decodes_back in H.
  unfold pct_encode_char. destruct (unreserved ch).
  - apply andb_true_iff in H as [H1 H2].
    apply negb_true_iff in H1, H2.
    cbn [append pct_decode]. rewrite H1, H2. reflexivity.
  - cbn [append pct_decode]. cbn [Ascii.eqb Bool.eqb].
    destruct (hex_value (hex_digit (N_of_ascii ch / 16))) as [a|]; [|discriminate].
    destruct (hex_value (hex_digit (N_of_ascii ch mod 16))) as [b|]; [|discriminate].
    apply Ascii.eqb_eq in H. rewrite H. reflexivity.
Qed.

Lemma pct_decode_encode s : pct_decode (pct_encode s) = Some s.
Proof.
  induction s as [|ch s IH]; [reflexivity|].
  cbn [pct_encode]. now rewrite pct_encode_char_decode, IH.
Qed.

Lemma pct_encode_unreserved s : all_chars unreserved s = true -> pct_encode s = s.
Proof.
  induction s as [|ch s IH]; simpl; [reflexivity|].
  intros H. apply andb_true_iff in H as [Hc Hs].
  unfold pct_encode_char. rewrite Hc. simpl. now rewrite IH.
Qed.

Lemma unreserved_lower_char ch : unreserved (lower_char ch) = true -> unreserved ch = true.
Proof. each_byte ch; vm_compute; auto. Qed.

Lemma all_unreserved_lower s :
  all_chars unreserved (lower s) = true -> all_chars unreserved s = true.
Proof.
  induction s as [|ch s IH]; simpl; [reflexivity|].
  intros H. apply andb_true_iff in H as [Hc Hs].
  now rewrite (unreserved_lower_char _ Hc), IH.
Qed.

Lemma split_on_app_sep sep a b :
  mem_char sep a = false -> split_on sep (a ++ String sep b) = a :: split_on sep b.
Proof.
  induction a as [|x a IH]; simpl.
  - intros _. now rewrite Ascii.eqb_refl.
  - intros H. apply orb_false_iff in H as [Hx Ha].
    rewrite Ascii.eqb_sym, Hx, (IH Ha). reflexivity.
Qed.

Lemma string_of_uint_digits d : all_chars unreserved (NilEmpty.string_of_uint d) = true.
Proof.
  induction d as [|d IH|d IH|d IH|d IH|d IH|d IH|d IH|d IH|d IH|d IH];
    cbn [NilEmpty.string_of_uint all_chars]; try rewrite IH; reflexivity.
Qed.

Lemma string_of_uint_nilzero_digits d :
  all_chars unreserved (NilZero.string_of_uint d) = true.
Proof. destruct d; try reflexivity; apply string_of_uint_digits. Qed.

Lemma number_to_string_unreserved n : all_chars unreserved (number_to_string n) = true.
Proof.
  unfold number_to_string. destruct (Z.to_int n) as [d|d]; cbn [NilZero.string_of_int];
    [|cbn [all_chars]; change (unreserved "-") with true; cbn [andb]];
    apply string_of_uint_nilzero_digits.
Qed.

Lemma prefix_app a rest : String.prefix a (a ++ rest) = true.
Proof.
  induction a as [|x a IH]; simpl; [destruct rest; reflexivity|].
  destruct (ascii_dec x x); [exact IH|congruence].
Qed.

Lemma indexOf_prefix a rest : indexOf (a ++ rest) a = 0.
Proof.
  unfold indexOf. pose proof (prefix_app a rest) as H.
  destruct (a ++ rest); cbn [indexOf_from]; rewrite H; reflexivity.
Qed.

Example encode_plain : encodeURIComponent (VStr "en-us") = inr "en-us".
Proof. reflexivity. Qed.

Example encode_reserved :
  encodeURIComponent (VStr "a b&c=d?") = inr "a%20b%26c%3Dd%3F".
Proof. reflexivity. Qed.

Example encode_number : encodeURIComponent (VNum (-12)) = inr "-12".
Proof. reflexivity. Qed.

Example replace_no : replace "no" "" "no" = "" /\ replace "no" "" "maybe" = "maybe".
Proof. split; reflexivity. Qed.

Example indexOf_examples :
  indexOf "ERROR: bad key" "ERROR" = 0 /\ indexOf "xERROR" "ERROR" = 1
  /\ indexOf "data:audio" "ERROR" = -1.
Proof. repeat split; reflexivity. Qed.

(** U+D7FF and an emoji outside the basic plane are well formed; the
    sample text with the unpaired U+D83D is not, and cannot be encoded. *)
Example well_formed_examples :
  well_formed (String (ascii_of_N 237) (String (ascii_of_N 159) (String (ascii_of_N 191)
                 EmptyString))) = true /\
  well_formed (String (ascii_of_N 240) (String (ascii_of_N 159) (String (ascii_of_N 152)
                 (String (ascii_of_N 128) EmptyString)))) = true /\
  well_formed lone_surrogate_text = false /\
  encodeURIComponent (VStr lone_surrogate_text) = inl (URIError "URI malformed").
Proof. repeat split; reflexivity. Qed.

Example decode_examples :
  pct_decode "a%20b%26c%3Dd%3F" = Some "a b&c=d?" /\ pct_decode "a+b" = Some "a b"
  /\ pct_decode "100%" = None.
Proof. repeat split; reflexivity. Qed.

Example lower_examples : lower "MP3" = "mp3" /\ lower "Auto" = "auto".
Proof. split; reflexivity. Qed.

(** ** The monad *)

Lemma try_finally_fin {A} (m : M A) (w : World) :
  disabled (fst (try_finally m (set_disabled false) w)) = false.
Proof. unfold try_finally. destruct (m w) as [w' res]. reflexivity. Qed.

Lemma add_probes_nil w : add_probes [] w = w.
Proof. destruct w. unfold add_probes. simpl. now rewrite app_nil_r. Qed.

(** ** The codec decision *)

Lemma eqb_false_of_neq a b : a <> b -> (a =? b)%string = false.
Proof. intros H. now apply String.eqb_neq. Qed.

Lemma explicit_codec_str name w :
  VoiceRSS.explicit_codec (VStr name) w
  = (w, inr (negb (name =? "")%string && negb (lower name =? "auto")%string)).
Proof.
  unfold VoiceRSS.explicit_codec. cbn [truthy toLowerCase lift].
  destruct (name =? "")%string; reflexivity.
Qed.

Lemma explicit_codec_explicit v name w :
  explicit_name v name -> VoiceRSS.explicit_codec v w = (w, inr true).
Proof.
  intros (-> & Hne & Hna). rewrite explicit_codec_str.
  now rewrite (eqb_false_of_neq _ _ Hne), (eqb_false_of_neq _ _ Hna).
Qed.

Lemma detectCodec_first_supported env w :
  exists ps, VoiceRSS._detectCodec env w = (add_probes ps w, inr (spec_first_supported env)).
Proof.
  unfold VoiceRSS._detectCodec, spec_first_supported, priority.
  cbn [find].
  change (supports env "mp3")
    with (truthy (VStr (replace "no" "" (canPlayType env "audio/mpeg")))).
  change (supports env "wav")
    with (truthy (VStr (replace "no" "" (canPlayType env "audio/wav")))).
  change (supports env "aac")
    with (truthy (VStr (replace "no" "" (canPlayType env "audio/aac")))).
  change (supports env "ogg")
    with (truthy (VStr (replace "no" "" (canPlayType env "audio/ogg")))).
  change (supports env "caf")
    with (truthy (VStr (replace "no" "" (canPlayType env "audio/x-caf")))).
  cbv beta iota zeta delta
    [bind ret VoiceRSS.can_play probe add_probes
     disabled textContent audio alerts console network probes].
  repeat match goal with
         | |- context [truthy ?v] => destruct (truthy v) eqn:?; cbv beta iota
         end;
    eexists;
    rewrite <- ?app_assoc; reflexivity.
Qed.

Lemma getXHR_available env w :
  xhr_available env = true -> exists k, VoiceRSS._getXHR env w = (w, inr k).
Proof.
  unfold xhr_available, xhr_ctors. cbn [existsb].
  cbv beta iota delta [VoiceRSS._getXHR try_catch VoiceRSS.new_xhr ret throw].
  repeat match goal with
         | |- context [constructible env ?k] =>
             destruct (constructible env k); cbv beta iota
         end;
    cbn [orb]; intros H; try discriminate H; eexists; reflexivity.
Qed.

Lemma getXHR_unavailable env w :
  xhr_available env = false ->
  VoiceRSS._getXHR env w = (w, inl (Error "The browser does not support HTTP request")).
Proof.
  unfold xhr_available, xhr_ctors. cbn [existsb].
  cbv beta iota delta [VoiceRSS._getXHR try_catch VoiceRSS.new_xhr ret throw].
  repeat match goal with
         | |- context [constructible env ?k] =>
             destruct (constructible env k); cbv beta iota
         end;
    cbn [orb]; intros H; try discriminate H; reflexivity.
Qed.

(** ** Validation *)

Lemma validate_missing env s w :
  required_ok s = false ->
  exists e, InvalidRequest e /\ VoiceRSS._validate env (Some s) w = (w, inl e).
Proof.
  unfold required_ok, VoiceRSS._validate, InvalidRequest, throw.
  destruct (truthy (VoiceRSS.key s)); cbn [negb andb];
    [destruct (truthy (VoiceRSS.src s)); cbn [negb andb];
     [destruct (truthy (VoiceRSS.hl s)); cbn [negb andb]; [discriminate|]|]|];
    intros _; eexists; (split; [|reflexivity]); auto.
Qed.

Lemma validate_auto env s w :
  required_ok s = true -> codec_request (VoiceRSS.c s) = Some None ->
  VoiceRSS._validate env (Some s) w = (w, inr tt).
Proof.
  unfold required_ok, VoiceRSS._validate. intros H Hc.
  apply andb_true_iff in H as [H Hh]. apply andb_true_iff in H as [Hk Hs].
  rewrite Hk, Hs, Hh. cbn [negb].
  unfold bind, VoiceRSS.explicit_codec.
  destruct (VoiceRSS.c s) as [| |[]|n|name]; cbn in Hc |- *; try discriminate Hc;
    try reflexivity.
  - destruct (n =? 0); [reflexivity|discriminate].
  - destruct (name =? "")%string; cbn in Hc |- *; [reflexivity|].
    destruct (lower name =? "auto")%string; [reflexivity|discriminate].
Qed.

Lemma validate_ill_typed env s w :
  required_ok s = true -> codec_request (VoiceRSS.c s) = None ->
  exists msg, VoiceRSS._validate env (Some s) w = (w, inl (TypeError msg)).
Proof.
  unfold required_ok, VoiceRSS._validate. intros H Hc.
  apply andb_true_iff in H as [H Hh]. apply andb_true_iff in H as [Hk Hs].
  rewrite Hk, Hs, Hh. cbn [negb].
  unfold bind, VoiceRSS.explicit_codec.
  destruct (VoiceRSS.c s) as [| |[]|n|name]; cbn in Hc |- *; try discriminate Hc.
  - eexists; reflexivity.
  - destruct (n =? 0); [discriminate|]. eexists; reflexivity.
  - destruct (name =? "")%string; cbn in Hc; [discriminate|].
    destruct (lower name =? "auto")%string; discriminate.
Qed.

Lemma codec_request_explicit v name :
  codec_request v = Some (Some name) <-> explicit_name v name.
Proof.
  unfold explicit_name. split.
  - destruct v as [| |[]|n|nm]; cbn; try discriminate.
    + destruct (n =? 0); discriminate.
    + destruct (nm =? "")%string eqn:E1; cbn; [discriminate|].
      destruct (lower nm =? "auto")%string eqn:E2; [discriminate|].
      intros [= ->]. apply String.eqb_neq in E1, E2. auto.
  - intros (-> & H1 & H2). cbn.
    now rewrite (eqb_false_of_neq _ _ H1), (eqb_false_of_neq _ _ H2).
Qed.

Lemma validate_explicit env s name w :
  required_ok s = true -> explicit_name (VoiceRSS.c s) name ->
  exists ps,
    VoiceRSS._validate env (Some s) w
    = (add_probes ps w,
       if supports env name then inr tt
       else inl (Error ("The browser does not support the audio codec " ++ name))).
Proof.
  unfold required_ok, VoiceRSS._validate. intros H Hc.
  apply andb_true_iff in H as [H Hh]. apply andb_true_iff in H as [Hk Hs].
  rewrite Hk, Hs, Hh. cbn [negb].
  unfold bind at 1. rewrite (explicit_codec_explicit _ _ w Hc).
  destruct Hc as (Hc & _ & _). rewrite Hc.
  unfold supports, codec_mime. destruct w as [wd wt wa wl wc wn wp].
  cbv beta iota zeta delta
    [bind ret throw lift toLowerCase VoiceRSS.can_play probe add_probes ToString
     disabled textContent audio alerts console network probes].
  repeat match goal with
         | |- context [(lower name =? ?k)%string] =>
             destruct (lower name =? k)%string; cbv beta iota
         end;
    try (match goal with
         | |- context [truthy (VStr (replace ?a ?b ?x))] =>
             destruct (truthy (VStr (replace a b x))); cbn [negb]
         end);
    solve [ eexists; reflexivity
          | exists []; cbn [negb truthy]; now rewrite app_nil_r ].
Qed.

(** ** Request construction *)

Lemma explicit_codec_none v w :
  codec_request v = Some None -> VoiceRSS.explicit_codec v w = (w, inr false).
Proof.
  unfold VoiceRSS.explicit_codec.
  destruct v as [| |[]|n|name]; cbn; try discriminate; try reflexivity.
  - destruct (n =? 0); [reflexivity|discriminate].
  - destruct (name =? "")%string; cbn; [reflexivity|].
    destruct (lower name =? "auto")%string; [reflexivity|discriminate].
Qed.

Lemma auto_or_omitted_request v : auto_or_omitted v -> codec_request v = Some None.
Proof.
  intros [-> | (name & -> & H)]; [reflexivity|].
  cbn. rewrite H. now rewrite orb_true_r.
Qed.

Lemma decided_codec_explicit env s name :
  explicit_name (VoiceRSS.c s) name -> decided_codec env s = name.
Proof.
  intros H. apply codec_request_explicit in H. unfold decided_codec. now rewrite H.
Qed.

Lemma decided_codec_auto env s :
  codec_request (VoiceRSS.c s) = Some None -> decided_codec env s = spec_first_supported env.
Proof. intros H. unfold decided_codec. now rewrite H. Qed.

Lemma field_text_str x : field_text (VStr x) = x.
Proof. destruct x; reflexivity. Qed.

Lemma first_supported_well_formed env : well_formed (spec_first_supported env) = true.
Proof.
  unfold spec_first_supported, priority. cbn [find].
  repeat match goal with
         | |- context [supports env ?k] => destruct (supports env k)
         end; reflexivity.
Qed.

(** The seven calls of [encodeURIComponent] in the template, in their
    order: the first text that cannot be encoded ends the construction. *)
Lemma encode_chain s codec w :
  (skey <- VoiceRSS.prop (Some s) VoiceRSS.key ;;
   ekey <- lift (encodeURIComponent (js_or skey (VStr ""))) ;;
   ssrc <- VoiceRSS.prop (Some s) VoiceRSS.src ;;
   esrc <- lift (encodeURIComponent (js_or ssrc (VStr ""))) ;;
   shl <- VoiceRSS.prop (Some s) VoiceRSS.hl ;;
   ehl <- lift (encodeURIComponent (js_or shl (VStr ""))) ;;
   sr <- VoiceRSS.prop (Some s) VoiceRSS.r ;;
   er <- lift (encodeURIComponent (js_or sr (VStr ""))) ;;
   ec <- lift (encodeURIComponent (js_or (VStr codec) (VStr ""))) ;;
   sf <- VoiceRSS.prop (Some s) VoiceRSS.f ;;
   ef <- lift (encodeURIComponent (js_or sf (VStr ""))) ;;
   sssml <- VoiceRSS.prop (Some s) VoiceRSS.ssml ;;
   essml <- lift (encodeURIComponent (js_or sssml (VStr ""))) ;;
   ret ("key=" ++ ekey ++ "&src=" ++ esrc ++ "&hl=" ++ ehl ++ "&r=" ++ er
        ++ "&c=" ++ ec ++ "&f=" ++ ef ++ "&ssml=" ++ essml ++ "&b64=true")) w
  = (w, if texts_encodable s && well_formed codec
        then inr (form_body s codec) else inl (URIError "URI malformed")).
Proof.
  unfold texts_encodable, encodable, form_body.
  cbv beta iota zeta delta [bind ret throw lift VoiceRSS.prop encodeURIComponent].
  fold (field_text (VoiceRSS.key s)) (field_text (VoiceRSS.src s))
       (field_text (VoiceRSS.hl s)) (field_text (VoiceRSS.r s))
       (field_text (VoiceRSS.f s)) (field_text (VoiceRSS.ssml s))
       (field_text (VStr codec)).
  rewrite field_text_str.
  destruct (well_formed (field_text (VoiceRSS.key s))); cbn [andb]; [|reflexivity].
  destruct (well_formed (field_text (VoiceRSS.src s))); cbn [andb]; [|reflexivity].
  destruct (well_formed (field_text (VoiceRSS.hl s))); cbn [andb]; [|reflexivity].
  destruct (well_formed (field_text (VoiceRSS.r s))); cbn [andb]; [|reflexivity].
  destruct (well_formed codec); cbn [andb];
    destruct (well_formed (field_text (VoiceRSS.f s))); cbn [andb]; try reflexivity;
    destruct (well_formed (field_text (VoiceRSS.ssml s))); reflexivity.
Qed.

Lemma buildRequest_ok env s w :
  codec_request (VoiceRSS.c s) <> None ->
  exists ps,
    VoiceRSS._buildRequest env (Some s) w
    = (add_probes ps w,
       if body_encodable env s then inr (form_body s (decided_codec env s))
       else inl (URIError "URI malformed")).
Proof.
  intros Hc. unfold body_encodable.
  destruct (codec_request (VoiceRSS.c s)) as [[name|]|] eqn:E;
    [| |congruence]; clear Hc.
  - rewrite (decided_codec_explicit env s name) by now apply codec_request_explicit.
    apply codec_request_explicit in E.
    exists []. rewrite add_probes_nil.
    unfold VoiceRSS._buildRequest. unfold bind at 1. cbn [VoiceRSS.prop ret].
    unfold bind at 1. rewrite (explicit_codec_explicit _ _ w E).
    unfold bind at 1. cbn [ret].
    destruct E as (E & _ & _). rewrite E. apply encode_chain.
  - rewrite (decided_codec_auto env s E).
    destruct (detectCodec_first_supported env w) as [ps Hd]. exists ps.
    unfold VoiceRSS._buildRequest. unfold bind at 1. cbn [VoiceRSS.prop ret].
    unfold bind at 1. rewrite (explicit_codec_none _ w E).
    unfold bind at 1. unfold bind at 1. rewrite Hd. cbn [ret].
    apply encode_chain.
Qed.

Lemma buildRequest_ill_typed env s w :
  codec_request (VoiceRSS.c s) = None ->
  exists msg, VoiceRSS._buildRequest env (Some s) w = (w, inl (TypeError msg)).
Proof.
  intros Hc.
  cbv beta iota delta [VoiceRSS._buildRequest bind VoiceRSS.prop ret VoiceRSS.explicit_codec].
  destruct (VoiceRSS.c s) as [| |[]|n|name]; cbn in Hc |- *; try discriminate Hc.
  - eexists; reflexivity.
  - destruct (n =? 0); [discriminate|]. eexists; reflexivity.
  - destruct (name =? "")%string; cbn in Hc; [discriminate|].
    destruct (lower name =? "auto")%string; discriminate.
Qed.

Lemma append_assoc' (a b c : string) : (a ++ b ++ c = (a ++ b) ++ c)%string.
Proof. induction a as [|x a IH]; simpl; [reflexivity|now rewrite IH]. Qed.

Lemma split_segment pre e rest :
  mem_char "&" pre = false -> mem_char "&" e = false ->
  split_on "&" (pre ++ e ++ String "&" rest) = (pre ++ e) :: split_on "&" rest.
Proof.
  intros Hp He. rewrite append_assoc'. apply split_on_app_sep.
  now rewrite mem_char_app, Hp, He.
Qed.

(** The body read back at [&] and [=]: eight fields, in the order the
    template writes them. *)
Lemma parse_form_body s codec :
  parse_form (form_body s codec)
  = [("key", pct_encode (field_text (VoiceRSS.key s)));
     ("src", pct_encode (field_text (VoiceRSS.src s)));
     ("hl", pct_encode (field_text (VoiceRSS.hl s)));
     ("r", pct_encode (field_text (VoiceRSS.r s)));
     ("c", pct_encode codec);
     ("f", pct_encode (field_text (VoiceRSS.f s)));
     ("ssml", pct_encode (field_text (VoiceRSS.ssml s)));
     ("b64", "true")].
Proof.
  unfold form_body, parse_form.
  set (e1 := pct_encode (field_text (VoiceRSS.key s))).
  set (e2 := pct_encode (field_text (VoiceRSS.src s))).
  set (e3 := pct_encode (field_text (VoiceRSS.hl s))).
  set (e4 := pct_encode (field_text (VoiceRSS.r s))).
  set (e5 := pct_encode codec).
  set (e6 := pct_encode (field_text (VoiceRSS.f s))).
  set (e7 := pct_encode (field_text (VoiceRSS.ssml s))).
  assert (H1 : mem_char "&" e1 = false) by apply pct_encode_no_amp.
  assert (H2 : mem_char "&" e2 = false) by apply pct_encode_no_amp.
  assert (H3 : mem_char "&" e3 = false) by apply pct_encode_no_amp.
  assert (H4 : mem_char "&" e4 = false) by apply pct_encode_no_amp.
  assert (H5 : mem_char "&" e5 = false) by apply pct_encode_no_amp.
  assert (H6 : mem_char "&" e6 = false) by apply pct_encode_no_amp.
  assert (H7 : mem_char "&" e7 = false) by apply pct_encode_no_amp.
  clearbody e1 e2 e3 e4 e5 e6 e7.
  change ("key=" ++ e1 ++ "&src=" ++ e2 ++ "&hl=" ++ e3 ++ "&r=" ++ e4 ++ "&c=" ++ e5
          ++ "&f=" ++ e6 ++ "&ssml=" ++ e7 ++ "&b64=true")
    with ("key=" ++ e1 ++ String "&" ("src=" ++ e2 ++ String "&" ("hl=" ++ e3 ++ String "&"
          ("r=" ++ e4 ++ String "&" ("c=" ++ e5 ++ String "&" ("f=" ++ e6 ++ String "&"
          ("ssml=" ++ e7 ++ String "&" "b64=true"))))))).
  rewrite !split_segment by (assumption || reflexivity).
  reflexivity.
Qed.

(** ** Transport *)

Lemma request_run env s w :
  codec_request (VoiceRSS.c s) <> None ->
  exists ps,
    VoiceRSS._request env (Some s) w
    = if body_encodable env s then
        if xhr_available env
        then (add_request (speech_post (form_body s (decided_codec env s))) (add_probes ps w),
              inr tt)
        else (add_probes ps w, inl (Error "The browser does not support HTTP request"))
      else (add_probes ps w, inl (URIError "URI malformed")).
Proof.
  intros Hc. destruct (buildRequest_ok env s w Hc) as [ps Hb]. exists ps.
  unfold VoiceRSS._request. unfold bind at 1. rewrite Hb.
  destruct (body_encodable env s); [|reflexivity].
  unfold bind. destruct (xhr_available env) eqn:Hx.
  - destruct (getXHR_available env (add_probes ps w) Hx) as [k Hk].
    rewrite Hk. reflexivity.
  - rewrite (getXHR_unavailable env _ Hx). reflexivity.
Qed.

Lemma validate_passes_inv env s w w1 :
  VoiceRSS._validate env (Some s) w = (w1, inr tt) ->
  required_ok s = true /\ codec_request (VoiceRSS.c s) <> None /\
  (forall name, explicit_name (VoiceRSS.c s) name -> supports env name = true) /\
  exists ps, w1 = add_probes ps w.
Proof.
  intros H. destruct (required_ok s) eqn:Hr.
  2:{ destruct (validate_missing env s w Hr) as (e & _ & He). congruence. }
  destruct (codec_request (VoiceRSS.c s)) as [[name|]|] eqn:Hc.
  - apply codec_request_explicit in Hc.
    destruct (validate_explicit env s name w Hr Hc) as [ps Hv].
    rewrite Hv in H. repeat split; try congruence.
    + intros name' Hc'. destruct Hc as (Hc & _), Hc' as (Hc' & _).
      assert (name' = name) as -> by congruence.
      destruct (supports env name); [reflexivity|discriminate].
    + exists ps. congruence.
  - rewrite (validate_auto env s w Hr Hc) in H. repeat split; try congruence.
    + intros name Hn. apply codec_request_explicit in Hn. congruence.
    + exists []. rewrite add_probes_nil. congruence.
  - destruct (validate_ill_typed env s w Hr Hc) as [msg Hv]. congruence.
Qed.

Lemma add_probes_add_probes ps qs w :
  add_probes qs (add_probes ps w) = add_probes (ps ++ qs) w.
Proof. unfold add_probes. cbn. now rewrite app_assoc. Qed.

(** ** Rejection during validation *)

Lemma bind_throws {A B} (m : M A) (k : A -> M B) w w' e :
  m w = (w', inl e) -> bind m k w = (w', inl e).
Proof. intros H. unfold bind. now rewrite H. Qed.

Lemma absent_or_empty_falsy v : absent_or_empty v -> truthy v = false.
Proof. intros [-> | ->]; reflexivity. Qed.

Lemma supports_outside_enumeration env name :
  ~ In (lower name) priority -> supports env name = false.
Proof.
  unfold supports, codec_mime, priority. intros H.
  repeat match goal with
         | |- context [(lower name =? ?k)%string] =>
             destruct (String.eqb_spec (lower name) k) as [E|_];
               [exfalso; apply H; rewrite E; cbn; tauto|]
         end.
  reflexivity.
Qed.

Lemma validate_rejects_unsupported env s name w :
  explicit_name (VoiceRSS.c s) name -> supports env name = false ->
  exists e w',
    VoiceRSS._validate env (Some s) w = (w', inl e) /\
    network w' = network w /\
    (required_ok s = true ->
     e = Error ("The browser does not support the audio codec " ++ name)) /\
    (required_ok s = false -> InvalidRequest e).
Proof.
  intros Hc Hs. destruct (required_ok s) eqn:Hr.
  - destruct (validate_explicit env s name w Hr Hc) as [ps Hv]. rewrite Hs in Hv.
    eexists _, _. split; [exact Hv|].
    repeat split; first [discriminate | intros; reflexivity].
  - destruct (validate_missing env s w Hr) as (e & He & Hv).
    exists e, w. repeat split; [exact Hv|discriminate|auto].
Qed.

Lemma not_unsupported_codec msg :
  String.prefix "The browser" msg = false -> ~ UnsupportedCodec (Error msg).
Proof.
  intros H [codec E]. injection E as ->. cbn in H. discriminate H.
Qed.

(** C1. When the key, the text or the language of the settings is absent or
    empty, [_validate] throws one of its three missing-field errors and
    leaves the world as it found it; so does [speech], and nothing that
    follows validation runs: no request body is built, no capability query
    and no network call is made. *)
Theorem C1_missing_required_field_rejected env s w :
  absent_or_empty (VoiceRSS.key s) \/ absent_or_empty (VoiceRSS.src s) \/
  absent_or_empty (VoiceRSS.hl s) ->
  exists e,
    InvalidRequest e /\
    VoiceRSS._validate env (Some s) w = (w, inl e) /\
    VoiceRSS.speech env (Some s) w = (w, inl e) /\
    forall k : unit -> M unit, bind (VoiceRSS._validate env (Some s)) k w = (w, inl e).
Proof.
  intros H.
  assert (Hr : required_ok s = false).
  { unfold required_ok.
    destruct H as [H | [H | H]]; apply absent_or_empty_falsy in H; rewrite H;
      cbn; now rewrite ?andb_false_r. }
  destruct (validate_missing env s w Hr) as (e & He & Hv).
  exists e. repeat split; [exact He|exact Hv| |intros k]; now apply bind_throws.
Qed.

Lemma C1_witness :
  (absent_or_empty (VoiceRSS.key settings_no_key) \/
   absent_or_empty (VoiceRSS.src settings_no_key) \/
   absent_or_empty (VoiceRSS.hl settings_no_key)) /\
  exists e,
    InvalidRequest e /\
    VoiceRSS._validate (browser "probably" true) (Some settings_no_key) page0
    = (page0, inl e) /\
    VoiceRSS.speech (browser "probably" true) (Some settings_no_key) page0
    = (page0, inl e) /\
    forall k : unit -> M unit,
      bind (VoiceRSS._validate (browser "probably" true) (Some settings_no_key)) k page0
      = (page0, inl e).
Proof.
  assert (H : absent_or_empty (VoiceRSS.key settings_no_key) \/
              absent_or_empty (VoiceRSS.src settings_no_key) \/
              absent_or_empty (VoiceRSS.hl settings_no_key))
    by (left; left; reflexivity).
  split; [exact H|].
  exact (C1_missing_required_field_rejected (browser "probably" true) settings_no_key page0 H).
Defined.

(** C2, as amended.  When the settings name a concrete codec that the
    capability probe does not support, [speech] throws during validation
    and the network is untouched.  The error is the unsupported-codec error
    when key, text and language are all present; when one of them is
    missing, validation has already thrown the missing-field error. *)
Theorem C2_unsupported_codec_rejected env s name w :
  explicit_name (VoiceRSS.c s) name -> supports env name = false ->
  exists e w',
    VoiceRSS._validate env (Some s) w = (w', inl e) /\
    VoiceRSS.speech env (Some s) w = (w', inl e) /\
    network w' = network w /\
    (required_ok s = true ->
     e = Error ("The browser does not support the audio codec " ++ name)) /\
    (required_ok s = false -> InvalidRequest e).
Proof.
  intros Hc Hs.
  destruct (validate_rejects_unsupported env s name w Hc Hs) as (e & w' & Hv & Hn & H1 & H2).
  exists e, w'. repeat split; auto. now apply bind_throws.
Qed.

Lemma explicit_name_intro name :
  (name =? "")%string = false -> (lower name =? "auto")%string = false ->
  explicit_name (VStr name) name.
Proof.
  intros H1 H2. apply String.eqb_neq in H1, H2. repeat split; assumption.
Qed.

Lemma C2_witness :
  (explicit_name (VoiceRSS.c (settings_with_codec (VStr "ogg"))) "ogg" /\
   supports (browser "" true) "ogg" = false) /\
  exists e w',
    VoiceRSS._validate (browser "" true) (Some (settings_with_codec (VStr "ogg"))) page0
    = (w', inl e) /\
    VoiceRSS.speech (browser "" true) (Some (settings_with_codec (VStr "ogg"))) page0
    = (w', inl e) /\
    network w' = network page0 /\
    (required_ok (settings_with_codec (VStr "ogg")) = true ->
     e = Error ("The browser does not support the audio codec " ++ "ogg")) /\
    (required_ok (settings_with_codec (VStr "ogg")) = false -> InvalidRequest e).
Proof.
  assert (H : explicit_name (VoiceRSS.c (settings_with_codec (VStr "ogg"))) "ogg")
    by (apply explicit_name_intro; reflexivity).
  split; [split; [exact H|reflexivity]|].
  exact (C2_unsupported_codec_rejected (browser "" true)
           (settings_with_codec (VStr "ogg")) "ogg" page0 H eq_refl).
Defined.

(** C2 as stated fails: the settings below name the codec [mp3], which this
    browser cannot play, yet [speech] throws the missing-key error, which
    is not an unsupported-codec error. *)
Lemma C2_counterexample :
  explicit_name (VoiceRSS.c settings_no_key) "mp3" /\
  supports (browser "" true) "mp3" = false /\
  VoiceRSS.speech (browser "" true) (Some settings_no_key) page0
  = (page0, inl (Error "The API key is undefined")) /\
  ~ UnsupportedCodec (Error "The API key is undefined").
Proof.
  repeat split; try discriminate.
  now apply not_unsupported_codec.
Qed.

Lemma validate_outside_enumeration env s name w :
  required_ok s = true -> explicit_name (VoiceRSS.c s) name ->
  ~ In (lower name) priority ->
  VoiceRSS._validate env (Some s) w
  = (w, inl (Error ("The browser does not support the audio codec " ++ name))).
Proof.
  unfold required_ok, VoiceRSS._validate, priority. intros H Hc Hout.
  apply andb_true_iff in H as [H Hh]. apply andb_true_iff in H as [Hk Hs].
  rewrite Hk, Hs, Hh. cbn [negb].
  unfold bind at 1. rewrite (explicit_codec_explicit _ _ w Hc).
  destruct Hc as (Hc & _ & _). rewrite Hc.
  cbv beta iota zeta delta [bind ret throw lift toLowerCase ToString].
  repeat match goal with
         | |- context [(lower name =? ?k)%string] =>
             destruct (String.eqb_spec (lower name) k) as [E|_];
               [exfalso; apply Hout; rewrite E; cbn; tauto|]
         end.
  reflexivity.
Qed.

(** C10, as amended.  A concrete codec name outside mp3, wav, aac, ogg, caf
    never gets past validation, whatever the browser answers: [speech]
    throws with the world untouched (no capability query, no request), and
    nothing after validation runs.  The error is the unsupported-codec
    error when key, text and language are all present; when one of them is
    missing, validation has already thrown the missing-field error. *)
Theorem C10_codec_outside_enumeration_rejected env s name w :
  explicit_name (VoiceRSS.c s) name -> ~ In (lower name) priority ->
  exists e,
    VoiceRSS._validate env (Some s) w = (w, inl e) /\
    VoiceRSS.speech env (Some s) w = (w, inl e) /\
    (forall k : unit -> M unit, bind (VoiceRSS._validate env (Some s)) k w = (w, inl e)) /\
    (required_ok s = true ->
     e = Error ("The browser does not support the audio codec " ++ name)) /\
    (required_ok s = false -> InvalidRequest e).
Proof.
  intros Hc Hout. destruct (required_ok s) eqn:Hr.
  - pose proof (validate_outside_enumeration env s name w Hr Hc Hout) as Hv.
    eexists. split; [exact Hv|].
    split; [now apply bind_throws|]. split; [intros k; now apply bind_throws|].
    split; [reflexivity|discriminate].
  - destruct (validate_missing env s w Hr) as (e & He & Hv).
    exists e. split; [exact Hv|].
    split; [now apply bind_throws|]. split; [intros k; now apply bind_throws|].
    split; [discriminate|auto].
Qed.

Lemma C10_witness :
  (explicit_name (VoiceRSS.c (settings_with_codec (VStr "FLAC"))) "FLAC" /\
   ~ In (lower "FLAC") priority) /\
  exists e,
    VoiceRSS._validate (browser "probably" true)
      (Some (settings_with_codec (VStr "FLAC"))) page0 = (page0, inl e) /\
    VoiceRSS.speech (browser "probably" true)
      (Some (settings_with_codec (VStr "FLAC"))) page0 = (page0, inl e) /\
    (forall k : unit -> M unit,
        bind (VoiceRSS._validate (browser "probably" true)
                (Some (settings_with_codec (VStr "FLAC")))) k page0 = (page0, inl e)) /\
    (required_ok (settings_with_codec (VStr "FLAC")) = true ->
     e = Error ("The browser does not support the audio codec " ++ "FLAC")) /\
    (required_ok (settings_with_codec (VStr "FLAC")) = false -> InvalidRequest e).
Proof.
  assert (H1 : explicit_name (VoiceRSS.c (settings_with_codec (VStr "FLAC"))) "FLAC")
    by (apply explicit_name_intro; reflexivity).
  assert (H2 : ~ In (lower "FLAC") priority)
    by (cbn; intros [H|[H|[H|[H|[H|[]]]]]]; discriminate H).
  split; [split; assumption|].
  exact (C10_codec_outside_enumeration_rejected (browser "probably" true)
           (settings_with_codec (VStr "FLAC")) "FLAC" page0 H1 H2).
Defined.

(** C10 as stated fails: the settings below name the codec [flac], outside
    the enumeration, yet validation throws the missing-language error,
    which is not an unsupported-codec error. *)
Lemma C10_counterexample :
  explicit_name (VoiceRSS.c settings_flac_no_hl) "flac" /\
  ~ In (lower "flac") priority /\
  VoiceRSS._validate (browser "probably" true) (Some settings_flac_no_hl) page0
  = (page0, inl (Error "The language is undefined")) /\
  ~ UnsupportedCodec (Error "The language is undefined").
Proof.
  split; [apply explicit_name_intro; reflexivity|].
  split; [cbn; intros [H|[H|[H|[H|[H|[]]]]]]; discriminate H|].
  split; [reflexivity|].
  now apply not_unsupported_codec.
Qed.

(** ** Codec selection and transport *)

Lemma field_c_form_body s codec :
  field "c" (parse_form (form_body s codec)) = Some (pct_encode codec).
Proof. rewrite parse_form_body. reflexivity. Qed.

Lemma first_supported_plain env :
  pct_encode (spec_first_supported env) = spec_first_supported env.
Proof.
  unfold spec_first_supported, priority. cbn [find].
  repeat match goal with
         | |- context [supports env ?k] => destruct (supports env k)
         end; reflexivity.
Qed.

Lemma supported_name_plain env name : supports env name = true -> pct_encode name = name.
Proof.
  intros H. apply pct_encode_unreserved, all_unreserved_lower.
  unfold supports, codec_mime in H.
  repeat match type of H with
         | context [(lower name =? ?k)%string] =>
             destruct (String.eqb_spec (lower name) k) as [E|_];
               [rewrite E; reflexivity|]
         end.
  discriminate H.
Qed.

Lemma unreserved_not_surrogate a b : unreserved a = true -> surrogate_at a b = false.
Proof. each_byte a; intros H; try discriminate H; reflexivity. Qed.

Lemma unreserved_well_formed s : all_chars unreserved s = true -> well_formed s = true.
Proof.
  induction s as [|a s IH]; [reflexivity|].
  cbn [all_chars well_formed]. intros H. apply andb_true_iff in H as [Ha Hs].
  destruct s as [|b s]; [reflexivity|].
  now rewrite (unreserved_not_surrogate a b Ha), (IH Hs).
Qed.

Lemma supported_name_well_formed env name :
  supports env name = true -> well_formed name = true.
Proof.
  intros H. apply unreserved_well_formed, all_unreserved_lower.
  unfold supports, codec_mime in H.
  repeat match type of H with
         | context [(lower name =? ?k)%string] =>
             destruct (String.eqb_spec (lower name) k) as [E|_];
               [rewrite E; reflexivity|]
         end.
  discriminate H.
Qed.

Lemma body_encodable_auto env s :
  codec_request (VoiceRSS.c s) = Some None -> body_encodable env s = texts_encodable s.
Proof.
  intros H. unfold body_encodable.
  now rewrite (decided_codec_auto env s H), first_supported_well_formed, andb_true_r.
Qed.

Lemma body_encodable_explicit env s name :
  explicit_name (VoiceRSS.c s) name ->
  body_encodable env s = texts_encodable s && well_formed name.
Proof.
  intros H. unfold body_encodable. now rewrite (decided_codec_explicit env s name H).
Qed.

Lemma body_encodable_supported env s name :
  explicit_name (VoiceRSS.c s) name -> supports env name = true ->
  body_encodable env s = texts_encodable s.
Proof.
  intros H Hs. rewrite (body_encodable_explicit env s name H).
  now rewrite (supported_name_well_formed env name Hs), andb_true_r.
Qed.

Lemma speech_runs env s w :
  required_ok s = true -> codec_request (VoiceRSS.c s) <> None ->
  (forall name, explicit_name (VoiceRSS.c s) name -> supports env name = true) ->
  exists ps,
    VoiceRSS.speech env (Some s) w
    = if body_encodable env s then
        if xhr_available env
        then (add_request (speech_post (form_body s (decided_codec env s))) (add_probes ps w),
              inr tt)
        else (add_probes ps w, inl (Error "The browser does not support HTTP request"))
      else (add_probes ps w, inl (URIError "URI malformed")).
Proof.
  intros Hr Hc Hsup. unfold VoiceRSS.speech, bind.
  destruct (codec_request (VoiceRSS.c s)) as [[name|]|] eqn:E; [| |congruence].
  - apply codec_request_explicit in E.
    destruct (validate_explicit env s name w Hr E) as [ps Hv].
    rewrite Hv, (Hsup name E).
    destruct (request_run env s (add_probes ps w)) as [qs Hq].
    { apply codec_request_explicit in E. congruence. }
    rewrite Hq, add_probes_add_probes. eexists; reflexivity.
  - rewrite (validate_auto env s w Hr E).
    destruct (request_run env s w) as [qs Hq]; [congruence|].
    rewrite Hq. eexists; reflexivity.
Qed.

Lemma speech_network env s w w' res body :
  VoiceRSS.speech env (Some s) w = (w', res) ->
  body = form_body s (decided_codec env s) ->
  network w' = network w \/ network w' = (network w ++ [speech_post body])%list.
Proof.
  intros H ->. destruct (required_ok s) eqn:Hr.
  2:{ destruct (validate_missing env s w Hr) as (e & _ & Hv).
      unfold VoiceRSS.speech in H. rewrite (bind_throws _ _ _ _ _ Hv) in H.
      injection H as <- _. now left. }
  destruct (codec_request (VoiceRSS.c s)) as [[name|]|] eqn:E.
  - pose proof E as En. apply codec_request_explicit in En.
    destruct (supports env name) eqn:Hs.
    + destruct (speech_runs env s w Hr) as [ps Hp]; [congruence| |].
      { intros name' (Hn' & _). destruct En as (Hn & _). congruence. }
      rewrite Hp in H.
      destruct (body_encodable env s); [destruct (xhr_available env)|];
        injection H as <- _; solve [now right|now left].
    + destruct (validate_rejects_unsupported env s name w En Hs) as (e & w1 & Hv & Hn & _).
      unfold VoiceRSS.speech in H. rewrite (bind_throws _ _ _ _ _ Hv) in H.
      injection H as <- _. now left.
  - destruct (speech_runs env s w Hr) as [ps Hp]; [congruence| |].
    { intros name' Hn'. apply codec_request_explicit in Hn'. congruence. }
    rewrite Hp in H.
    destruct (body_encodable env s); [destruct (xhr_available env)|];
      injection H as <- _; solve [now right|now left].
  - destruct (validate_ill_typed env s w Hr E) as [msg Hv].
    unfold VoiceRSS.speech in H. rewrite (bind_throws _ _ _ _ _ Hv) in H.
    injection H as <- _. now left.
Qed.

(** C3.  With the codec omitted or ["auto"], every body [_buildRequest]
    builds has its [c] field equal to the first of mp3, wav, aac, ogg, caf
    that the probe supports, or empty when it supports none; this holds for
    every browser.  A body is built whenever the texts of the settings can
    be encoded (otherwise [encodeURIComponent] throws); every request
    [speech] puts on the network is the POST of such a body, and the POST
    goes out whenever validation passes and a request object exists, also
    when no codec is supported. *)
Theorem C3_auto_codec_is_first_supported env s w :
  auto_or_omitted (VoiceRSS.c s) ->
  exists ps,
    (texts_encodable s = true ->
     exists body,
       VoiceRSS._buildRequest env (Some s) w = (add_probes ps w, inr body) /\
       field "c" (parse_form body) = Some (spec_first_supported env) /\
       (required_ok s = true -> xhr_available env = true ->
        exists qs,
          VoiceRSS.speech env (Some s) w
          = (add_request (speech_post body) (add_probes qs w), inr tt))) /\
    (texts_encodable s = false ->
     VoiceRSS._buildRequest env (Some s) w
     = (add_probes ps w, inl (URIError "URI malformed"))) /\
    (forall w' res,
        VoiceRSS.speech env (Some s) w = (w', res) ->
        network w' = network w \/
        exists body,
          network w' = (network w ++ [speech_post body])%list /\
          field "c" (parse_form body) = Some (spec_first_supported env)).
Proof.
  intros Hauto. apply auto_or_omitted_request in Hauto.
  assert (Hfield : field "c" (parse_form (form_body s (decided_codec env s)))
                   = Some (spec_first_supported env)).
  { rewrite field_c_form_body, (decided_codec_auto env s Hauto).
    now rewrite first_supported_plain. }
  destruct (buildRequest_ok env s w) as [ps Hb]; [congruence|].
  rewrite (body_encodable_auto env s Hauto) in Hb.
  exists ps. split; [|split].
  - intros He. rewrite He in Hb. exists (form_body s (decided_codec env s)).
    split; [exact Hb|]. split; [exact Hfield|].
    intros Hr Hx. destruct (speech_runs env s w Hr) as [qs Hq]; [congruence| |].
    + intros name Hn. apply codec_request_explicit in Hn. congruence.
    + rewrite (body_encodable_auto env s Hauto), He, Hx in Hq. now exists qs.
  - intros He. now rewrite He in Hb.
  - intros w' res H.
    destruct (speech_network env s w w' res _ H eq_refl) as [Hn|Hn]; [now left|].
    right. eauto.
Qed.

Lemma C3_witness :
  auto_or_omitted (VoiceRSS.c (settings_with_codec (VStr "Auto"))) /\
  exists ps body,
    VoiceRSS._buildRequest ogg_browser (Some (settings_with_codec (VStr "Auto"))) page0
    = (add_probes ps page0, inr body) /\
    field "c" (parse_form body) = Some "ogg".
Proof.
  assert (H : auto_or_omitted (VoiceRSS.c (settings_with_codec (VStr "Auto"))))
    by (right; exists "Auto"; split; reflexivity).
  split; [exact H|].
  destruct (C3_auto_codec_is_first_supported ogg_browser
              (settings_with_codec (VStr "Auto")) page0 H) as (ps & Hok & _).
  destruct (Hok eq_refl) as (body & Hb & Hc & _).
  exists ps, body. split; [exact Hb|exact Hc].
Defined.

(** No codec playable: the request still leaves, with an empty [c]. *)
Example auto_codec_none_supported :
  spec_first_supported (browser "" true) = "" /\
  network (fst (VoiceRSS.speech (browser "" true)
                  (Some (settings_with_codec VUndefined)) page0))
  = [speech_post "key=k&src=Hello&hl=en-us&r=&c=&f=&ssml=&b64=true"].
Proof. split; reflexivity. Qed.

(** A browser that plays only ogg and caf: ogg comes first. *)
Example auto_codec_ogg_first :
  let env := mkEnv (fun mime => if (mime =? "audio/ogg")%string then "maybe"
                                else if (mime =? "audio/x-caf")%string then "probably"
                                else if (mime =? "audio/wav")%string then "no"
                                else "")
               (fun _ => true) None (Rejected (Error "offline")) in
  VoiceRSS._detectCodec env page0
  = (add_probes ["audio/mpeg"; "audio/wav"; "audio/aac"; "audio/ogg"] page0, inr "ogg").
Proof. reflexivity. Qed.

(** C4, as amended.  For settings with key, text and language present and
    a concrete codec the probe supports: when every text can be encoded and
    the browser can create a request object, [speech] returns normally
    having put exactly one request on the network, the POST of a body whose
    [c] field is the requested codec as written; when no request object can
    be created, [speech] throws and the network is untouched; when a text
    holds an unpaired surrogate, [encodeURIComponent] throws [URIError]
    while the body is built and the network is untouched. *)
Theorem C4_explicit_codec_one_post env s name w :
  required_ok s = true -> explicit_name (VoiceRSS.c s) name -> supports env name = true ->
  exists ps,
    (texts_encodable s = true ->
     exists body,
       field "c" (parse_form body) = Some name /\
       (xhr_available env = true ->
        VoiceRSS.speech env (Some s) w
        = (add_request (speech_post body) (add_probes ps w), inr tt) /\
        network (add_request (speech_post body) (add_probes ps w))
        = (network w ++ [speech_post body])%list) /\
       (xhr_available env = false ->
        VoiceRSS.speech env (Some s) w
        = (add_probes ps w, inl (Error "The browser does not support HTTP request")) /\
        network (add_probes ps w) = network w)) /\
    (texts_encodable s = false ->
     VoiceRSS.speech env (Some s) w = (add_probes ps w, inl (URIError "URI malformed")) /\
     network (add_probes ps w) = network w).
Proof.
  intros Hr Hc Hs.
  destruct (speech_runs env s w Hr) as [ps Hp].
  { apply codec_request_explicit in Hc. congruence. }
  { intros name' (Hn' & _). destruct Hc as (Hn & _).
    assert (name' = name) as -> by congruence. exact Hs. }
  rewrite (body_encodable_supported env s name Hc Hs) in Hp.
  exists ps. split.
  - intros He. rewrite He in Hp. exists (form_body s (decided_codec env s)). split.
    + rewrite field_c_form_body, (decided_codec_explicit env s name Hc).
      now rewrite (supported_name_plain env name Hs).
    + split; intros Hx; rewrite Hx in Hp; split; solve [exact Hp | reflexivity].
  - intros He. rewrite He in Hp. split; [exact Hp|reflexivity].
Qed.

Lemma C4_witness :
  (required_ok (settings_with_codec (VStr "MP3")) = true /\
   explicit_name (VoiceRSS.c (settings_with_codec (VStr "MP3"))) "MP3" /\
   supports (browser "maybe" true) "MP3" = true) /\
  exists ps body,
    field "c" (parse_form body) = Some "MP3" /\
    VoiceRSS.speech (browser "maybe" true) (Some (settings_with_codec (VStr "MP3"))) page0
    = (add_request (speech_post body) (add_probes ps page0), inr tt).
Proof.
  assert (H2 : explicit_name (VoiceRSS.c (settings_with_codec (VStr "MP3"))) "MP3")
    by (apply explicit_name_intro; reflexivity).
  split; [repeat split; solve [reflexivity | apply H2]|].
  destruct (C4_explicit_codec_one_post (browser "maybe" true)
              (settings_with_codec (VStr "MP3")) "MP3" page0 eq_refl H2 eq_refl)
    as (ps & Hok & _).
  destruct (Hok eq_refl) as (body & Hc & Hx & _).
  exists ps, body. split; [exact Hc|exact (proj1 (Hx eq_refl))].
Defined.

(** A text with an unpaired surrogate passes validation and stops the
    request while its body is built. *)
Example surrogate_text_stops_the_request :
  VoiceRSS._validate (browser "maybe" true) (Some settings_surrogate) page0
  = (add_probes ["audio/mpeg"] page0, inr tt) /\
  VoiceRSS.speech (browser "maybe" true) (Some settings_surrogate) page0
  = (add_probes ["audio/mpeg"] page0, inl (URIError "URI malformed")).
Proof. split; reflexivity. Qed.

(** C4 as stated fails: complete settings with the codec [mp3], which this
    browser plays, but no request constructor works; [speech] throws and no
    POST is issued. *)
Lemma C4_counterexample :
  required_ok (settings_with_codec (VStr "mp3")) = true /\
  explicit_name (VoiceRSS.c (settings_with_codec (VStr "mp3"))) "mp3" /\
  supports (browser "probably" false) "mp3" = true /\
  VoiceRSS.speech (browser "probably" false) (Some (settings_with_codec (VStr "mp3"))) page0
  = (add_probes ["audio/mpeg"] page0,
     inl (Error "The browser does not support HTTP request")) /\
  network (add_probes ["audio/mpeg"] page0) = [].
Proof.
  split; [reflexivity|].
  split; [apply explicit_name_intro; reflexivity|].
  repeat split.
Qed.

(** ** The request body *)

Lemma speech_cases env s w :
  (speech_ok env s = false /\
   exists ps e, VoiceRSS.speech env (Some s) w = (add_probes ps w, inl e)) \/
  (speech_ok env s = true /\
   exists ps,
     VoiceRSS.speech env (Some s) w
     = (add_request (speech_post (form_body s (decided_codec env s))) (add_probes ps w),
        inr tt)).
Proof.
  unfold speech_ok. destruct (required_ok s) eqn:Hr; cbn [andb].
  2:{ left. split; [reflexivity|].
      destruct (validate_missing env s w Hr) as (e & _ & Hv).
      exists [], e. rewrite add_probes_nil. now apply bind_throws. }
  destruct (codec_request (VoiceRSS.c s)) as [[name|]|] eqn:E.
  - pose proof E as En. apply codec_request_explicit in En.
    destruct (supports env name) eqn:Hs; cbn [andb].
    + destruct (speech_runs env s w Hr) as [ps Hp]; [congruence| |].
      { intros name' (Hn' & _). destruct En as (Hn & _). congruence. }
      rewrite Hp.
      destruct (body_encodable env s); [destruct (xhr_available env)|];
        cbn [andb]; solve [right; split; [reflexivity|]; eexists; reflexivity
                          |left; split; [reflexivity|]; eexists _, _; reflexivity].
    + left. split; [reflexivity|].
      destruct (validate_explicit env s name w Hr En) as [ps Hv]. rewrite Hs in Hv.
      eexists ps, _. apply bind_throws. exact Hv.
  - cbn [andb]. destruct (speech_runs env s w Hr) as [ps Hp]; [congruence| |].
    { intros name' Hn'. apply codec_request_explicit in Hn'. congruence. }
    rewrite Hp.
    destruct (body_encodable env s); [destruct (xhr_available env)|];
      cbn [andb]; solve [right; split; [reflexivity|]; eexists; reflexivity
                        |left; split; [reflexivity|]; eexists _, _; reflexivity].
  - left. split; [reflexivity|].
    destruct (validate_ill_typed env s w Hr E) as [msg Hv].
    exists [], (TypeError msg). rewrite add_probes_nil. now apply bind_throws.
Qed.

Lemma accepted_body_encodable env s :
  codec_request (VoiceRSS.c s) <> None ->
  (forall name, explicit_name (VoiceRSS.c s) name -> supports env name = true) ->
  body_encodable env s = texts_encodable s.
Proof.
  intros Hc Hsup. destruct (codec_request (VoiceRSS.c s)) as [[name|]|] eqn:E;
    [| |congruence].
  - apply codec_request_explicit in E.
    exact (body_encodable_supported env s name E (Hsup name E)).
  - now apply body_encodable_auto.
Qed.

(** C5.  For settings that pass validation and whose texts can be encoded,
    the body [speech] goes on to build reads back, at [&] and [=], as
    exactly the eight fields key, src, hl, r, c, f, ssml, b64 in that
    order; each value is the percent-encoded text of its field and decodes
    back to it; [c] carries the decided codec and [b64] the fixed [true];
    an absent r, f or ssml is present with an empty value; any request
    [speech] sends is the POST of that body.  When a text holds an unpaired
    surrogate no body is built: [encodeURIComponent] throws and nothing is
    sent.  Numeric fields are taken in the safe integers. *)
Theorem C5_body_layout env s w w1 :
  VoiceRSS._validate env (Some s) w = (w1, inr tt) -> safe_settings s ->
  exists ps,
    (texts_encodable s = true ->
     exists body,
       VoiceRSS._buildRequest env (Some s) w1 = (add_probes ps w1, inr body) /\
       parse_form body
       = [("key", pct_encode (field_text (VoiceRSS.key s)));
          ("src", pct_encode (field_text (VoiceRSS.src s)));
          ("hl", pct_encode (field_text (VoiceRSS.hl s)));
          ("r", pct_encode (field_text (VoiceRSS.r s)));
          ("c", pct_encode (decided_codec env s));
          ("f", pct_encode (field_text (VoiceRSS.f s)));
          ("ssml", pct_encode (field_text (VoiceRSS.ssml s)));
          ("b64", "true")] /\
       map (fun nv => pct_decode (snd nv)) (parse_form body)
       = [Some (field_text (VoiceRSS.key s)); Some (field_text (VoiceRSS.src s));
          Some (field_text (VoiceRSS.hl s)); Some (field_text (VoiceRSS.r s));
          Some (decided_codec env s); Some (field_text (VoiceRSS.f s));
          Some (field_text (VoiceRSS.ssml s)); Some "true"] /\
       (VoiceRSS.r s = VUndefined -> field "r" (parse_form body) = Some "") /\
       (VoiceRSS.f s = VUndefined -> field "f" (parse_form body) = Some "") /\
       (VoiceRSS.ssml s = VUndefined -> field "ssml" (parse_form body) = Some "") /\
       (forall w' res,
           VoiceRSS.speech env (Some s) w = (w', res) ->
           network w' = network w \/
           network w' = (network w ++ [speech_post body])%list)) /\
    (texts_encodable s = false ->
     VoiceRSS._buildRequest env (Some s) w1
     = (add_probes ps w1, inl (URIError "URI malformed")) /\
     forall w' res, VoiceRSS.speech env (Some s) w = (w', res) -> network w' = network w).
Proof.
  intros Hv _. destruct (validate_passes_inv env s w w1 Hv) as (Hr & Hc & Hsup & qs & ->).
  destruct (buildRequest_ok env s (add_probes qs w) Hc) as [ps Hb].
  rewrite (accepted_body_encodable env s Hc Hsup) in Hb.
  exists ps. split; intros He; rewrite He in Hb.
  - exists (form_body s (decided_codec env s)).
    split; [exact Hb|]. rewrite parse_form_body.
    split; [reflexivity|].
    split; [cbn [map snd]; now rewrite !pct_decode_encode|].
    split; [intros ->; reflexivity|].
    split; [intros ->; reflexivity|].
    split; [intros ->; reflexivity|].
    intros w' res H. now apply (speech_network env s w w' res).
  - split; [exact Hb|]. intros w' res H.
    destruct (speech_runs env s w Hr Hc Hsup) as [rs Hrun].
    rewrite (accepted_body_encodable env s Hc Hsup), He in Hrun.
    rewrite Hrun in H. now injection H as <- _.
Qed.

Lemma C5_witness :
  (VoiceRSS._validate (browser "probably" true) (Some (settings_with_codec (VStr "wav"))) page0
   = (add_probes ["audio/wav"] page0, inr tt) /\
   safe_settings (settings_with_codec (VStr "wav"))) /\
  exists ps body,
    VoiceRSS._buildRequest (browser "probably" true)
      (Some (settings_with_codec (VStr "wav"))) (add_probes ["audio/wav"] page0)
    = (add_probes ps (add_probes ["audio/wav"] page0), inr body) /\
    parse_form body
    = [("key", "k"); ("src", "Hello"); ("hl", "en-us"); ("r", ""); ("c", "wav");
       ("f", ""); ("ssml", ""); ("b64", "true")].
Proof.
  assert (Hs : safe_settings (settings_with_codec (VStr "wav"))).
  { assert (H0 : is_safe_integer 0) by (unfold is_safe_integer; cbn; lia).
    exact (conj I (conj I (conj I (conj H0 (conj I I))))). }
  split; [split; [reflexivity|exact Hs]|].
  destruct (C5_body_layout (browser "probably" true) (settings_with_codec (VStr "wav"))
              page0 (add_probes ["audio/wav"] page0) eq_refl Hs)
    as (ps & Hok & _).
  destruct (Hok eq_refl) as (body & Hb & Hp & _).
  exists ps, body. split; [exact Hb|exact Hp].
Defined.

Lemma field_r_form_body s codec :
  field "r" (parse_form (form_body s codec)) = Some (pct_encode (field_text (VoiceRSS.r s))).
Proof. rewrite parse_form_body. reflexivity. Qed.

Lemma body_encodable_joke env joke :
  body_encodable env (joke_settings joke) = encodable joke.
Proof.
  unfold body_encodable, texts_encodable. cbn.
  now rewrite !andb_true_r.
Qed.

(** C9.  A rate of [0] is falsy, so [settings.r || ""] is the empty string
    and the body carries [r=] with nothing after it, not [r=0]; a non-zero
    rate is written as its decimal digits.  The settings the joke button
    passes have rate [0], so their body always has the empty [r].  (A body
    is built when the codec field is well-typed and every text can be
    encoded.) *)
Theorem C9_zero_rate_is_empty :
  (forall env s w,
      codec_request (VoiceRSS.c s) <> None -> body_encodable env s = true ->
      exists ps body,
        VoiceRSS._buildRequest env (Some s) w = (add_probes ps w, inr body) /\
        (VoiceRSS.r s = VNum 0 ->
         field "r" (parse_form body) = Some "" /\
         field "r" (parse_form body) <> Some "0") /\
        (forall n,
            VoiceRSS.r s = VNum n -> n <> 0 -> is_safe_integer n ->
            field "r" (parse_form body) = Some (number_to_string n))) /\
  (forall env joke w,
      encodable joke = true ->
      exists ps body,
        VoiceRSS._buildRequest env (Some (joke_settings joke)) w
        = (add_probes ps w, inr body) /\
        field "r" (parse_form body) = Some "").
Proof.
  split.
  - intros env s w Hc He. destruct (buildRequest_ok env s w Hc) as [ps Hb].
    rewrite He in Hb.
    exists ps, (form_body s (decided_codec env s)).
    split; [exact Hb|]. rewrite field_r_form_body. split.
    + intros ->. split; [reflexivity|discriminate].
    + intros n -> Hn _. unfold field_text, js_or. cbn [truthy].
      apply Z.eqb_neq in Hn. rewrite Hn. cbn [negb ToString].
      now rewrite (pct_encode_unreserved _ (number_to_string_unreserved n)).
  - intros env joke w He.
    destruct (buildRequest_ok env (joke_settings joke) w) as [ps Hb]; [discriminate|].
    rewrite body_encodable_joke, He in Hb.
    exists ps, (form_body (joke_settings joke) (decided_codec env (joke_settings joke))).
    split; [exact Hb|]. now rewrite field_r_form_body.
Qed.

Lemma C9_witness :
  (codec_request (VoiceRSS.c (settings_with_codec (VStr "mp3"))) <> None /\
   body_encodable (browser "maybe" true) (settings_with_codec (VStr "mp3")) = true) /\
  exists ps body,
    VoiceRSS._buildRequest (browser "maybe" true)
      (Some (settings_with_codec (VStr "mp3"))) page0 = (add_probes ps page0, inr body) /\
    field "r" (parse_form body) = Some "".
Proof.
  assert (H : codec_request (VoiceRSS.c (settings_with_codec (VStr "mp3"))) <> None)
    by discriminate.
  split; [split; [exact H|reflexivity]|].
  destruct (proj1 C9_zero_rate_is_empty (browser "maybe" true)
              (settings_with_codec (VStr "mp3")) page0 H eq_refl)
    as (ps & body & Hb & H0 & _).
  exists ps, body. split; [exact Hb|exact (proj1 (H0 eq_refl))].
Defined.

(** Rates as the API takes them, [-10] to [10]: [-3] and [7]. *)
Example rate_examples :
  form_body (VoiceRSS.mkSettings (VStr "k") (VStr "Hi") (VStr "en-us") (VNum (-3))
               VUndefined VUndefined VUndefined) "mp3"
  = "key=k&src=Hi&hl=en-us&r=-3&c=mp3&f=&ssml=&b64=true" /\
  form_body (VoiceRSS.mkSettings (VStr "k") (VStr "Hi") (VStr "en-us") (VNum 7)
               VUndefined VUndefined VUndefined) "mp3"
  = "key=k&src=Hi&hl=en-us&r=7&c=mp3&f=&ssml=&b64=true" /\
  form_body (joke_settings (VStr "Knock knock")) "mp3"
  = "key=YOUR%20API&src=Knock%20knock&hl=en-us&r=&c=mp3&f=44khz_16bit_stereo&ssml=&b64=true".
Proof. repeat split. Qed.

(** ** The response handler *)

(** C6.  On a response with status 200 whose text begins with [ERROR] the
    completion callback changes nothing at all: the audio element keeps its
    source and play count and the joke text stays as displayed.  In ready
    state 4 the callback throws the response text; in any other ready state
    it returns without doing anything. *)
Theorem C6_error_body_leaves_playback_alone env xhr w rest :
  VoiceRSS.status xhr = 200 ->
  VoiceRSS.responseText xhr = "ERROR" ++ rest ->
  exists res,
    VoiceRSS.onreadystatechange env xhr w = (w, res) /\
    audio (fst (VoiceRSS.onreadystatechange env xhr w)) = audio w /\
    textContent (fst (VoiceRSS.onreadystatechange env xhr w)) = textContent w /\
    (VoiceRSS.readyState xhr = 4 -> res = inl (Error (VoiceRSS.responseText xhr))) /\
    (VoiceRSS.readyState xhr <> 4 -> res = inr tt).
Proof.
  intros Hs Ht.
  assert (Hrun : VoiceRSS.onreadystatechange env xhr w
                 = (w, if VoiceRSS.readyState xhr =? 4
                       then inl (Error (VoiceRSS.responseText xhr)) else inr tt)).
  { unfold VoiceRSS.onreadystatechange.
    rewrite Hs, Ht, indexOf_prefix. cbn [Z.eqb Pos.eqb].
    destruct (VoiceRSS.readyState xhr =? 4); reflexivity. }
  rewrite Hrun. eexists. split; [reflexivity|].
  split; [reflexivity|]. split; [reflexivity|].
  split; intros E.
  - now rewrite E.
  - apply Z.eqb_neq in E. now rewrite E.
Qed.

Lemma C6_witness :
  (VoiceRSS.status (VoiceRSS.mkXhrState 4 200 "ERROR: The API key is not available") = 200 /\
   VoiceRSS.responseText (VoiceRSS.mkXhrState 4 200 "ERROR: The API key is not available")
   = "ERROR" ++ ": The API key is not available") /\
  VoiceRSS.onreadystatechange (browser "probably" true)
    (VoiceRSS.mkXhrState 4 200 "ERROR: The API key is not available") page0
  = (page0, inl (Error "ERROR: The API key is not available")).
Proof.
  split; [split; reflexivity|].
  destruct (C6_error_body_leaves_playback_alone (browser "probably" true)
              (VoiceRSS.mkXhrState 4 200 "ERROR: The API key is not available") page0
              ": The API key is not available" eq_refl eq_refl)
    as (res & Hr & _ & _ & H4 & _).
  rewrite Hr. f_equal. exact (H4 eq_refl).
Defined.

(** An audio reference in the response is assigned and played. *)
Example handler_plays_audio :
  VoiceRSS.onreadystatechange (browser "probably" true)
    (VoiceRSS.mkXhrState 4 200 "data:audio/mpeg;base64,AAAA") page0
  = (mkWorld false "" (Some (mkAudio "data:audio/mpeg;base64,AAAA" 1)) [] [] [] [], inr tt).
Proof. reflexivity. Qed.

(** The callback never touches the button, the joke text or the alerts,
    and sends nothing. *)
Lemma onreadystatechange_frame env xhr w :
  let w' := fst (VoiceRSS.onreadystatechange env xhr w) in
  disabled w' = disabled w /\ textContent w' = textContent w /\
  alerts w' = alerts w /\ network w' = network w.
Proof.
  unfold VoiceRSS.onreadystatechange.
  cbv beta iota zeta delta
    [bind ret throw getElementById_audio set_audio_src audio_play console_error].
  destruct (VoiceRSS.readyState xhr =? 4); [|repeat split].
  destruct (VoiceRSS.status xhr =? 200); [|repeat split].
  destruct (indexOf (VoiceRSS.responseText xhr) "ERROR" =? 0); [repeat split|].
  destruct (audio w); [|repeat split].
  destruct (play_rejects env); repeat split.
Qed.

(** ** The joke button *)

Lemma speech_ok_joke env joke :
  speech_ok env (joke_settings joke)
  = truthy joke && supports env "mp3" && encodable joke && xhr_available env.
Proof.
  unfold speech_ok. rewrite body_encodable_joke.
  unfold required_ok. cbn. now rewrite andb_true_r.
Qed.

Lemma click_fulfilled env joke w :
  joke_api env = Fulfilled joke ->
  let w' := fst (handleJokeButtonClick env w) in
  if speech_ok env (joke_settings joke)
  then alerts w' = alerts w /\ textContent w' = text_of joke
  else alerts w' = (alerts w ++ [sorry_notice])%list /\ textContent w' = "".
Proof.
  intros Hj.
  cbv beta iota zeta delta
    [handleJokeButtonClick fetchJoke fetch_joke_field try_finally try_catch bind ret throw
     set_disabled set_textContent send_request].
  rewrite Hj. cbv beta iota.
  match goal with
  | |- context [VoiceRSS.speech env ?s ?W] =>
      destruct (speech_cases env (joke_settings joke) W)
        as [(Hok & ps & e & Hrun) | (Hok & ps & Hrun)]
  end; rewrite Hrun, Hok; split; reflexivity.
Qed.

Lemma try_catch_handled {A} (m : M A) (h : exn -> M A) w :
  (forall e w1, exists w2 a, h e w1 = (w2, inr a)) ->
  exists w2 a, try_catch m h w = (w2, inr a).
Proof.
  intros Hh. unfold try_catch. destruct (m w) as [w1 [e|a]]; [apply Hh|eauto].
Qed.

Lemma click_finishes env w :
  snd (handleJokeButtonClick env w) = inr tt.
Proof.
  unfold handleJokeButtonClick, try_finally.
  match goal with
  | |- context [try_catch ?m ?h w] =>
      destruct (try_catch_handled m h w) as (w2 & [] & H)
  end.
  { intros e w1. eexists _, tt. reflexivity. }
  rewrite H. reflexivity.
Qed.

(** C7, as amended.  What happens to a speech request after it has been
    sent stays inside the speech client: the completion callback, on
    success, on an error body and on a failed status alike, leaves the
    button, the joke text and the alerts as they are.  A failure of
    [speech] before it returns is different: it is thrown into the click
    handler's [try] block.  After a joke has been fetched, the page keeps
    the joke and shows no notice exactly when [speech] returns normally
    (joke text truthy and free of unpaired surrogates, mp3 playable, a
    request object to be had); when [speech] throws (a validation error,
    the [URIError] of [encodeURIComponent], or no request object) the
    handler shows its notice and clears the text. *)
Theorem C7_speech_outcomes_and_the_page :
  (forall env xhr w,
      let w' := fst (VoiceRSS.onreadystatechange env xhr w) in
      disabled w' = disabled w /\ textContent w' = textContent w /\
      alerts w' = alerts w) /\
  (forall env s w,
      speech_ok env s = false <->
      exists w' e, VoiceRSS.speech env (Some s) w = (w', inl e)) /\
  (forall env joke w,
      joke_api env = Fulfilled joke -> safe_value joke ->
      let w' := fst (handleJokeButtonClick env w) in
      (speech_ok env (joke_settings joke) = true ->
       alerts w' = alerts w /\ textContent w' = text_of joke) /\
      (speech_ok env (joke_settings joke) = false ->
       alerts w' = (alerts w ++ [sorry_notice])%list /\ textContent w' = "")).
Proof.
  split; [|split].
  - intros env xhr w. destruct (onreadystatechange_frame env xhr w) as (H1 & H2 & H3 & _).
    cbv zeta. auto.
  - intros env s w.
    destruct (speech_cases env s w) as [(Hok & ps & e & Hrun) | (Hok & ps & Hrun)];
      rewrite Hok, Hrun; split.
    + intros _. eauto.
    + reflexivity.
    + discriminate.
    + intros (w' & e & H). discriminate H.
  - intros env joke w Hj _. pose proof (click_fulfilled env joke w Hj) as H.
    cbv zeta in *. destruct (speech_ok env (joke_settings joke)).
    + split; [auto|discriminate].
    + split; [discriminate|auto].
Qed.

Lemma C7_witness :
  joke_api (browser "probably" true) = Fulfilled (VStr "Why did the chicken cross the road?") /\
  speech_ok (browser "probably" true)
    (joke_settings (VStr "Why did the chicken cross the road?")) = true /\
  alerts (fst (handleJokeButtonClick (browser "probably" true) page0)) = [] /\
  textContent (fst (handleJokeButtonClick (browser "probably" true) page0))
  = "Why did the chicken cross the road?".
Proof.
  split; [reflexivity|]. split; [reflexivity|].
  exact (proj1 (proj2 (proj2 C7_speech_outcomes_and_the_page) (browser "probably" true)
                  (VStr "Why did the chicken cross the road?") page0 eq_refl I) eq_refl).
Defined.

(** A joke with an unpaired surrogate is fetched and displayed, then
    wiped: [speech] throws [URIError] into the handler's [try] block. *)
Example click_with_surrogate_joke :
  handleJokeButtonClick
    (mkEnv (fun _ => "probably") (fun _ => true) None (Fulfilled (VStr lone_surrogate_text)))
    page0
  = (mkWorld false "" (Some (mkAudio "" 0)) [sorry_notice]
       [["Error processing the joke:"; "URI malformed"]]
       [mkRequest "GET" "https://icanhazdadjoke.com/" [("Accept", "application/json")] None]
       ["audio/mpeg"],
     inr tt).
Proof. reflexivity. Qed.

(** C7 as stated fails: the joke is fetched and displayed, the browser
    cannot play mp3, [speech] throws its unsupported-codec error inside the
    handler's [try] block, and the handler shows its notice and clears the
    joke text. *)
Lemma C7_counterexample :
  joke_api (browser "" true) = Fulfilled (VStr "Why did the chicken cross the road?") /\
  (forall w,
      snd (VoiceRSS.speech (browser "" true)
             (Some (joke_settings (VStr "Why did the chicken cross the road?"))) w)
      = inl (Error "The browser does not support the audio codec mp3")) /\
  alerts (fst (handleJokeButtonClick (browser "" true) page0)) = [sorry_notice] /\
  textContent (fst (handleJokeButtonClick (browser "" true) page0)) = "".
Proof. repeat split. Qed.

(** C8.  Whatever the environment does (the joke arrives and [speech]
    returns, the fetch fails, or [speech] throws), a click cycle ends
    normally with the button enabled: the [finally] block runs on every
    path. *)
Theorem C8_button_enabled_after_cycle env w :
  snd (handleJokeButtonClick env w) = inr tt /\
  disabled (fst (handleJokeButtonClick env w)) = false /\
  (forall body : M unit,
      disabled (fst (try_finally body (set_disabled false) w)) = false).
Proof.
  split; [apply click_finishes|].
  split; [apply try_finally_fin|].
  intros body. apply try_finally_fin.
Qed.

(** The three outcomes on the sample page, which starts with the button
    enabled: joke spoken, fetch failed, speech refused. *)
Example click_joke_spoken :
  handleJokeButtonClick (browser "probably" true) page0
  = (mkWorld false "Why did the chicken cross the road?" (Some (mkAudio "" 0)) [] []
       [mkRequest "GET" "https://icanhazdadjoke.com/" [("Accept", "application/json")] None;
        speech_post
          ("key=YOUR%20API&src=Why%20did%20the%20chicken%20cross%20the%20road%3F"
           ++ "&hl=en-us&r=&c=mp3&f=44khz_16bit_stereo&ssml=&b64=true")]
       ["audio/mpeg"],
     inr tt).
Proof. reflexivity. Qed.

Example click_fetch_failed :
  handleJokeButtonClick (mkEnv (fun _ => "probably") (fun _ => true) None
                           (Rejected (TypeError "Failed to fetch"))) page0
  = (mkWorld false "" (Some (mkAudio "" 0)) [sorry_notice]
       [["Error fetching joke:"; "Failed to fetch"];
        ["Error processing the joke:"; "Failed to fetch a joke."]]
       [mkRequest "GET" "https://icanhazdadjoke.com/" [("Accept", "application/json")] None]
       [],
     inr tt).
Proof. reflexivity. Qed.

Example click_speech_refused :
  handleJokeButtonClick (browser "" true) page0
  = (mkWorld false "" (Some (mkAudio "" 0)) [sorry_notice]
       [["Error processing the joke:"; "The browser does not support the audio codec mp3"]]
       [mkRequest "GET" "https://icanhazdadjoke.com/" [("Accept", "application/json")] None]
       ["audio/mpeg"],
     inr tt).
Proof. reflexivity. Qed.

(* ================================================================== *)
(** * Further properties of the code *)

(** ** Validation: order of the checks, typing of the codec *)

Lemma speech_validate_throws env settings w w' e :
  VoiceRSS._validate env settings w = (w', inl e) ->
  VoiceRSS.speech env settings w = (w', inl e).
Proof. intros H. unfold VoiceRSS.speech. now apply bind_throws. Qed.

(** X1.  [speech] reports the first failing check in the order settings,
    key, text, language, whatever else is wrong with the settings: an
    undefined settings object before anything else, a falsy key before the
    text, a falsy text before the language.  In each case the world is left
    as it was. *)
Theorem X1_first_missing_field_is_reported env w :
  VoiceRSS.speech env None w = (w, inl (Error "The settings are undefined")) /\
  (forall s, truthy (VoiceRSS.key s) = false ->
             VoiceRSS.speech env (Some s) w = (w, inl (Error "The API key is undefined"))) /\
  (forall s, truthy (VoiceRSS.key s) = true -> truthy (VoiceRSS.src s) = false ->
             VoiceRSS.speech env (Some s) w = (w, inl (Error "The text is undefined"))) /\
  (forall s, truthy (VoiceRSS.key s) = true -> truthy (VoiceRSS.src s) = true ->
             truthy (VoiceRSS.hl s) = false ->
             VoiceRSS.speech env (Some s) w = (w, inl (Error "The language is undefined"))).
Proof.
  split; [reflexivity|].
  split; [|split].
  - intros s Hk. apply speech_validate_throws.
    unfold VoiceRSS._validate. now rewrite Hk.
  - intros s Hk Hs. apply speech_validate_throws.
    unfold VoiceRSS._validate. now rewrite Hk, Hs.
  - intros s Hk Hs Hh. apply speech_validate_throws.
    unfold VoiceRSS._validate. now rewrite Hk, Hs, Hh.
Qed.

Lemma X1_witness :
  truthy (VoiceRSS.key settings_flac_no_hl) = true /\
  truthy (VoiceRSS.src settings_flac_no_hl) = true /\
  truthy (VoiceRSS.hl settings_flac_no_hl) = false /\
  VoiceRSS.speech ogg_browser (Some settings_flac_no_hl) page0
  = (page0, inl (Error "The language is undefined")).
Proof.
  repeat (split; [reflexivity|]).
  exact (proj2 (proj2 (proj2 (X1_first_missing_field_is_reported ogg_browser page0)))
           settings_flac_no_hl eq_refl eq_refl eq_refl).
Defined.

Lemma not_a_string_request v : not_a_string v <-> codec_request v = None.
Proof.
  unfold not_a_string. split.
  - intros [-> | (n & -> & Hn)]; [reflexivity|].
    cbn. apply Z.eqb_neq in Hn. now rewrite Hn.
  - destruct v as [| |[]|n|name]; cbn; try discriminate; auto.
    + destruct (Z.eqb_spec n 0); [discriminate|]. intros _. right. eauto.
    + destruct ((name =? "")%string || (lower name =? "auto")%string); discriminate.
Qed.

(** X2.  A codec field holding [true] or a non-zero number is truthy but
    has no [toLowerCase]: with the required fields present, [speech] ends
    in a [TypeError] raised during validation, the world untouched and no
    request sent; [_buildRequest] called on its own fails the same way. *)
Theorem X2_non_string_codec_is_a_type_error env s w :
  not_a_string (VoiceRSS.c s) ->
  (required_ok s = true ->
   exists msg, VoiceRSS.speech env (Some s) w = (w, inl (TypeError msg))) /\
  exists msg, VoiceRSS._buildRequest env (Some s) w = (w, inl (TypeError msg)).
Proof.
  intros H. apply not_a_string_request in H. split.
  - intros Hr. destruct (validate_ill_typed env s w Hr H) as [msg Hv].
    exists msg. now apply speech_validate_throws.
  - now apply buildRequest_ill_typed.
Qed.

Lemma X2_witness :
  not_a_string (VoiceRSS.c (settings_with_codec (VNum 3))) /\
  required_ok (settings_with_codec (VNum 3)) = true /\
  exists msg,
    VoiceRSS.speech ogg_browser (Some (settings_with_codec (VNum 3))) page0
    = (page0, inl (TypeError msg)).
Proof.
  assert (H : not_a_string (VoiceRSS.c (settings_with_codec (VNum 3))))
    by (right; exists 3; split; [reflexivity|discriminate]).
  split; [exact H|]. split; [reflexivity|].
  exact (proj1 (X2_non_string_codec_is_a_type_error ogg_browser
                  (settings_with_codec (VNum 3)) page0 H) eq_refl).
Defined.

(** X3.  Validation accepts the settings exactly when key, text and
    language are truthy and the codec field either leaves the choice open
    (falsy, or ["auto"] in any letter case) or names a codec the probe
    supports. *)
Theorem X3_validation_accepts_iff env s w :
  snd (VoiceRSS._validate env (Some s) w) = inr tt <->
  required_ok s = true /\
  (codec_request (VoiceRSS.c s) = Some None \/
   exists name, explicit_name (VoiceRSS.c s) name /\ supports env name = true).
Proof.
  split.
  - intros H. destruct (VoiceRSS._validate env (Some s) w) as [w1 res] eqn:Hv.
    cbn in H. subst res.
    destruct (validate_passes_inv env s w w1 Hv) as (Hr & Hc & Hsup & _).
    split; [exact Hr|].
    destruct (codec_request (VoiceRSS.c s)) as [[name|]|] eqn:E; [|now left|congruence].
    right. exists name. apply codec_request_explicit in E. auto.
  - intros (Hr & [Hc | (name & Hn & Hs)]).
    + now rewrite (validate_auto env s w Hr Hc).
    + destruct (validate_explicit env s name w Hr Hn) as [ps Hv].
      now rewrite Hv, Hs.
Qed.

(** X4.  Validation asks the browser at most one capability question, the
    one for the MIME type of the codec the settings name, and changes
    nothing else in the world, whether it accepts or throws. *)
Theorem X4_validation_probes_at_most_once env settings w :
  exists ps,
    fst (VoiceRSS._validate env settings w) = add_probes ps w /\
    (length ps <= 1)%nat /\
    forall mime, In mime ps ->
      exists s name, settings = Some s /\ VoiceRSS.c s = VStr name /\
                     codec_mime (lower name) = Some mime.
Proof.
  destruct settings as [s|].
  2:{ exists []. rewrite add_probes_nil. repeat split; [cbn; lia|intros m []]. }
  destruct (required_ok s) eqn:Hr.
  2:{ destruct (validate_missing env s w Hr) as (e & _ & Hv). rewrite Hv.
      exists []. rewrite add_probes_nil. repeat split; [cbn; lia|intros m []]. }
  destruct (codec_request (VoiceRSS.c s)) as [[name|]|] eqn:E.
  - apply codec_request_explicit in E. pose proof E as (Hc & _ & _).
    destruct (codec_mime (lower name)) as [mime|] eqn:Hm.
    + exists [mime]. split; [|split; [cbn; lia|]].
      * revert Hm. unfold required_ok in Hr.
        apply andb_true_iff in Hr as [Hr Hh]. apply andb_true_iff in Hr as [Hk Hs].
        unfold VoiceRSS._validate. rewrite Hk, Hs, Hh. cbn [negb].
        unfold bind at 1. rewrite (explicit_codec_explicit _ _ w E). rewrite Hc.
        unfold codec_mime. destruct w as [wd wt wa wl wc wn wp].
        cbv beta iota zeta delta
          [bind ret throw lift toLowerCase VoiceRSS.can_play probe add_probes ToString
           disabled textContent audio alerts console network probes].
        repeat match goal with
               | |- context [(lower name =? ?k)%string] =>
                   destruct (lower name =? k)%string; cbv beta iota
               end;
          try discriminate; intros [= <-];
          match goal with
          | |- context [truthy (VStr (replace ?a ?b ?x))] =>
              destruct (truthy (VStr (replace a b x))); reflexivity
          end.
      * intros m [<-|[]]. exists s, name. auto.
    + exists []. rewrite add_probes_nil. split; [|split; [cbn; lia|intros m []]].
      assert (Hout : ~ In (lower name) priority).
      { unfold codec_mime in Hm. unfold priority. cbn [In].
        repeat match type of Hm with
               | context [(lower name =? ?k)%string] =>
                   destruct (String.eqb_spec (lower name) k); [discriminate Hm|]
               end.
        intuition congruence. }
      now rewrite (validate_outside_enumeration env s name w Hr E Hout).
  - rewrite (validate_auto env s w Hr E).
    exists []. rewrite add_probes_nil. repeat split; [cbn; lia|intros m []].
  - destruct (validate_ill_typed env s w Hr E) as [msg Hv]. rewrite Hv.
    exists []. rewrite add_probes_nil. repeat split; [cbn; lia|intros m []].
Qed.

(** ** The capability test *)

Lemma replace_no_empty answer :
  replace "no" "" answer = "" <-> answer = "" \/ answer = "no".
Proof.
  split.
  - destruct answer as [|c1 rest]; [now left|].
    cbn [replace String.prefix String.length drop append].
    destruct (ascii_dec "n" c1) as [<-|_]; [|discriminate].
    destruct rest as [|c2 rest];
      cbn [replace String.prefix String.length drop append]; [discriminate|].
    destruct (ascii_dec "o" c2) as [<-|_]; [|discriminate].
    destruct rest as [|c3 rest];
      cbn [replace String.prefix String.length drop append]; [now right|discriminate].
  - intros [-> | ->]; reflexivity.
Qed.

(** X5.  For settings with the required fields present and a codec name
    that, in lower case, is one of the five known ones, validation accepts
    exactly when [canPlayType] answers, for that codec's MIME type, anything
    but the empty string and the legacy ["no"]. *)
Theorem X5_codec_refused_on_empty_or_no env s name mime w :
  required_ok s = true -> explicit_name (VoiceRSS.c s) name ->
  codec_mime (lower name) = Some mime ->
  (snd (VoiceRSS._validate env (Some s) w) = inr tt <->
   canPlayType env mime <> "" /\ canPlayType env mime <> "no").
Proof.
  intros Hr Hn Hm. destruct (validate_explicit env s name w Hr Hn) as [ps Hv].
  rewrite Hv. unfold supports. rewrite Hm. cbn [truthy snd].
  destruct (String.eqb_spec (replace "no" "" (canPlayType env mime)) "") as [E|E]; cbn [negb].
  - apply replace_no_empty in E. split; [discriminate|]. intros [H1 H2]. tauto.
  - split; [|reflexivity]. intros _.
    split; intros H; apply E; apply replace_no_empty; auto.
Qed.

Lemma X5_witness :
  (required_ok (settings_with_codec (VStr "WAV")) = true /\
   explicit_name (VoiceRSS.c (settings_with_codec (VStr "WAV"))) "WAV" /\
   codec_mime (lower "WAV") = Some "audio/wav") /\
  (snd (VoiceRSS._validate ogg_browser (Some (settings_with_codec (VStr "WAV"))) page0)
   = inr tt <->
   canPlayType ogg_browser "audio/wav" <> "" /\ canPlayType ogg_browser "audio/wav" <> "no").
Proof.
  assert (H : explicit_name (VoiceRSS.c (settings_with_codec (VStr "WAV"))) "WAV")
    by (apply explicit_name_intro; reflexivity).
  split; [repeat split; solve [reflexivity | apply H]|].
  exact (X5_codec_refused_on_empty_or_no ogg_browser (settings_with_codec (VStr "WAV"))
           "WAV" "audio/wav" page0 eq_refl H eq_refl).
Defined.

(** The legacy answer ["no"] refuses wav in the sample browser. *)
Example wav_refused_on_no :
  VoiceRSS._validate ogg_browser (Some (settings_with_codec (VStr "WAV"))) page0
  = (add_probes ["audio/wav"] page0,
     inl (Error "The browser does not support the audio codec WAV")).
Proof. reflexivity. Qed.

(** ** Automatic codec selection *)

(** X6.  [_detectCodec] asks about the MIME types in the fixed order mpeg,
    wav, aac, ogg, x-caf and stops at the first one the browser supports:
    the queries it makes are a non-empty initial part of that list, every
    codec before the last query is unsupported, and the result is the codec
    of the last query when that one is supported, and the empty string,
    after all five queries, when none is. *)
Theorem X6_detection_stops_at_first_supported env w :
  exists k,
    (1 <= k <= 5)%nat /\
    fst (VoiceRSS._detectCodec env w) = add_probes (firstn k priority_mimes) w /\
    (forall codec, In codec (firstn (k - 1) priority) -> supports env codec = false) /\
    (snd (VoiceRSS._detectCodec env w)
     = inr (if supports env (nth (k - 1) priority "") then nth (k - 1) priority "" else "")) /\
    (supports env (nth (k - 1) priority "") = false -> k = 5%nat).
Proof.
  unfold VoiceRSS._detectCodec, priority, priority_mimes.
  cbv beta iota zeta delta
    [bind ret VoiceRSS.can_play probe add_probes
     disabled textContent audio alerts console network probes].
  change (truthy (VStr (replace "no" "" (canPlayType env "audio/mpeg"))))
    with (supports env "mp3").
  change (truthy (VStr (replace "no" "" (canPlayType env "audio/wav"))))
    with (supports env "wav").
  change (truthy (VStr (replace "no" "" (canPlayType env "audio/aac"))))
    with (supports env "aac").
  change (truthy (VStr (replace "no" "" (canPlayType env "audio/ogg"))))
    with (supports env "ogg").
  change (truthy (VStr (replace "no" "" (canPlayType env "audio/x-caf"))))
    with (supports env "caf").
  destruct (supports env "mp3") eqn:H1; cbv beta iota;
    [exists 1%nat; cbn [firstn nth Nat.sub]; rewrite H1|].
  2: destruct (supports env "wav") eqn:H2; cbv beta iota;
    [exists 2%nat; cbn [firstn nth Nat.sub]; rewrite H2|].
  3: destruct (supports env "aac") eqn:H3; cbv beta iota;
    [exists 3%nat; cbn [firstn nth Nat.sub]; rewrite H3|].
  4: destruct (supports env "ogg") eqn:H4; cbv beta iota;
    [exists 4%nat; cbn [firstn nth Nat.sub]; rewrite H4|].
  5: exists 5%nat; cbn [firstn nth Nat.sub]; destruct (supports env "caf") eqn:H5;
    cbv beta iota.
  all: cbn [fst snd]; rewrite <- ?app_assoc; cbn [app];
    (split; [lia|]); (split; [reflexivity|]);
    (split; [cbn [In]; intuition (subst; assumption)|]);
    (split; [reflexivity|]); intros; congruence.
Qed.

(** The sample browser is asked four questions and gets ogg. *)
Example detection_in_ogg_browser :
  VoiceRSS._detectCodec ogg_browser page0
  = (add_probes ["audio/mpeg"; "audio/wav"; "audio/aac"; "audio/ogg"] page0, inr "ogg").
Proof. reflexivity. Qed.

(** ** The request object *)

(** X7.  [_getXHR] yields the first constructor, in its order of
    preference, that can be instantiated, and throws its own error exactly
    when none can; it never changes the world. *)
Theorem X7_first_working_constructor env w :
  VoiceRSS._getXHR env w
  = (w, match find (constructible env) xhr_ctors with
        | Some k => inr k
        | None => inl (Error "The browser does not support HTTP request")
        end).
Proof.
  unfold xhr_ctors. cbn [find].
  cbv beta iota delta [VoiceRSS._getXHR try_catch VoiceRSS.new_xhr ret throw].
  repeat match goal with
         | |- context [constructible env ?k] =>
             destruct (constructible env k); cbv beta iota; try reflexivity
         end.
Qed.

(** Only the oldest ActiveX object is left: it is the one returned. *)
Example legacy_request_object :
  VoiceRSS._getXHR legacy_browser page0 = (page0, inr (ActiveXObject "Microsoft.XMLHTTP")).
Proof. reflexivity. Qed.

(** ** Request construction on its own *)

Lemma buildRequest_explicit env s name w :
  explicit_name (VoiceRSS.c s) name ->
  VoiceRSS._buildRequest env (Some s) w
  = (w, if texts_encodable s && well_formed name
        then inr (form_body s name) else inl (URIError "URI malformed")).
Proof.
  intros Hn. unfold VoiceRSS._buildRequest. unfold bind at 1. cbn [VoiceRSS.prop ret].
  unfold bind at 1. rewrite (explicit_codec_explicit _ _ w Hn).
  unfold bind at 1. cbn [ret].
  destruct Hn as (E & _ & _). rewrite E. apply encode_chain.
Qed.

(** X8.  [_buildRequest] does not check the codec: given any non-empty
    codec name other than ["auto"], known or not, playable or not, it asks
    the browser nothing and leaves the world untouched.  When the name and
    the other texts can be encoded it writes the name, as given, into the
    [c] field, from which it decodes back unchanged; its only failure on
    such settings is the [URIError] of a text with an unpaired surrogate.
    The capability check lives in [_validate] alone. *)
Theorem X8_build_request_trusts_the_codec env s name w :
  explicit_name (VoiceRSS.c s) name ->
  (texts_encodable s && well_formed name = true ->
   exists body,
     VoiceRSS._buildRequest env (Some s) w = (w, inr body) /\
     field "c" (parse_form body) = Some (pct_encode name) /\
     pct_decode (pct_encode name) = Some name) /\
  (texts_encodable s && well_formed name = false ->
   VoiceRSS._buildRequest env (Some s) w = (w, inl (URIError "URI malformed"))).
Proof.
  intros Hn. rewrite (buildRequest_explicit env s name w Hn).
  split; intros He; rewrite He; [|reflexivity].
  exists (form_body s name). split; [reflexivity|]. split.
  - apply field_c_form_body.
  - apply pct_decode_encode.
Qed.

Lemma X8_witness :
  (explicit_name (VoiceRSS.c (settings_with_codec (VStr "x-flac+1"))) "x-flac+1" /\
   texts_encodable (settings_with_codec (VStr "x-flac+1")) && well_formed "x-flac+1"
   = true) /\
  exists body,
    VoiceRSS._buildRequest (browser "" true)
      (Some (settings_with_codec (VStr "x-flac+1"))) page0 = (page0, inr body) /\
    field "c" (parse_form body) = Some "x-flac%2B1" /\
    pct_decode "x-flac%2B1" = Some "x-flac+1".
Proof.
  assert (H : explicit_name (VoiceRSS.c (settings_with_codec (VStr "x-flac+1"))) "x-flac+1")
    by (apply explicit_name_intro; reflexivity).
  split; [split; [exact H|reflexivity]|].
  exact (proj1 (X8_build_request_trusts_the_codec (browser "" true)
                  (settings_with_codec (VStr "x-flac+1")) "x-flac+1" page0 H) eq_refl).
Defined.

Lemma all_chars_append p a b : all_chars p (a ++ b) = all_chars p a && all_chars p b.
Proof.
  induction a as [|x a IH]; cbn [append all_chars]; [reflexivity|].
  now rewrite IH, andb_assoc.
Qed.

Lemma count_char_append ch a b :
  count_char ch (a ++ b) = (count_char ch a + count_char ch b)%nat.
Proof.
  induction a as [|x a IH]; cbn [append count_char]; [reflexivity|].
  rewrite IH. now destruct (Ascii.eqb x ch).
Qed.

Lemma pct_encode_char_alphabet ch :
  all_chars body_char (pct_encode_char ch) = true /\
  count_char "&" (pct_encode_char ch) = O /\ count_char "=" (pct_encode_char ch) = O.
Proof. each_byte ch; vm_compute; auto. Qed.

Lemma pct_encode_alphabet s :
  all_chars body_char (pct_encode s) = true /\
  count_char "&" (pct_encode s) = O /\ count_char "=" (pct_encode s) = O.
Proof.
  induction s as [|ch s (IH1 & IH2 & IH3)]; cbn [pct_encode]; [auto|].
  destruct (pct_encode_char_alphabet ch) as (H1 & H2 & H3).
  now rewrite all_chars_append, !count_char_append, H1, H2, H3, IH1, IH2, IH3.
Qed.

Lemma form_body_alphabet s codec :
  all_chars body_char (form_body s codec) = true /\
  count_char "&" (form_body s codec) = 7%nat /\
  count_char "=" (form_body s codec) = 8%nat.
Proof.
  unfold form_body.
  repeat match goal with
         | |- context [pct_encode ?x] =>
             let H := fresh "H" in
             let e := fresh "e" in
             pose proof (pct_encode_alphabet x) as H;
             set (e := pct_encode x) in *; clearbody e
         end.
  repeat match goal with H : _ /\ _ |- _ => destruct H end.
  rewrite !all_chars_append, !count_char_append.
  repeat match goal with H : _ = _ |- _ => rewrite H; clear H end.
  repeat split.
Qed.

(** X9.  Whatever the field values contain, a body [_buildRequest]
    returns is made only of unreserved characters, percent escapes and the
    separators of the template: it has exactly seven [&] and eight [=], so
    no value can add a field or cut one short.  A body is returned when
    every text can be encoded; otherwise the call throws [URIError]. *)
Theorem X9_body_alphabet_and_separators env s w :
  codec_request (VoiceRSS.c s) <> None ->
  exists ps,
    (body_encodable env s = true ->
     exists body,
       VoiceRSS._buildRequest env (Some s) w = (add_probes ps w, inr body) /\
       all_chars body_char body = true /\
       count_char "&" body = 7%nat /\
       count_char "=" body = 8%nat /\
       length (parse_form body) = 8%nat) /\
    (body_encodable env s = false ->
     VoiceRSS._buildRequest env (Some s) w
     = (add_probes ps w, inl (URIError "URI malformed"))).
Proof.
  intros Hc. destruct (buildRequest_ok env s w Hc) as [ps Hb].
  exists ps. split; intros He; rewrite He in Hb; [|exact Hb].
  exists (form_body s (decided_codec env s)).
  destruct (form_body_alphabet s (decided_codec env s)) as (H1 & H2 & H3).
  repeat split; try assumption. now rewrite parse_form_body.
Qed.

Lemma X9_witness :
  codec_request (VoiceRSS.c (joke_settings (VStr "Knock & knock = who?"))) <> None /\
  exists ps body,
    VoiceRSS._buildRequest ogg_browser
      (Some (joke_settings (VStr "Knock & knock = who?"))) page0
    = (add_probes ps page0, inr body) /\
    all_chars body_char body = true /\
    count_char "&" body = 7%nat /\
    count_char "=" body = 8%nat /\
    length (parse_form body) = 8%nat.
Proof.
  assert (H : codec_request (VoiceRSS.c (joke_settings (VStr "Knock & knock = who?"))) <> None)
    by discriminate.
  split; [exact H|].
  destruct (X9_body_alphabet_and_separators ogg_browser
              (joke_settings (VStr "Knock & knock = who?")) page0 H) as (ps & Hok & _).
  destruct (Hok eq_refl) as (body & Hrest).
  exists ps, body. exact Hrest.
Defined.

(** A joke with separators in it stays inside its field. *)
Example separators_in_the_joke :
  form_body (joke_settings (VStr "Knock & knock = who?")) "mp3"
  = "key=YOUR%20API&src=Knock%20%26%20knock%20%3D%20who%3F&hl=en-us&r=&c=mp3"
    ++ "&f=44khz_16bit_stereo&ssml=&b64=true".
Proof. reflexivity. Qed.

(** ** What [speech] touches *)

(** X10.  Whatever the settings and the browser, [speech] leaves the
    button, the joke text, the audio element, the alerts and the console as
    they are.  It returns normally exactly when it has put one request on
    the network, a POST to the speech API with the form content type; when
    it throws, the network is as before. *)
Theorem X10_speech_footprint env settings w :
  let w' := fst (VoiceRSS.speech env settings w) in
  disabled w' = disabled w /\ textContent w' = textContent w /\
  audio w' = audio w /\ alerts w' = alerts w /\ console w' = console w /\
  (snd (VoiceRSS.speech env settings w) = inr tt ->
   exists body, network w' = (network w ++ [speech_post body])%list) /\
  (forall e, snd (VoiceRSS.speech env settings w) = inl e -> network w' = network w).
Proof.
  destruct settings as [s|].
  2:{ cbn. repeat split; solve [discriminate | intros; reflexivity]. }
  destruct (speech_cases env s w) as [(_ & ps & e & Hrun) | (_ & ps & Hrun)];
    rewrite Hrun; cbn;
    repeat split;
    solve [discriminate | intros; reflexivity | intros; eexists; reflexivity].
Qed.

(** ** The completion callback, case by case *)

Lemma indexOf_from_range pat s i :
  0 <= i -> indexOf_from pat s i = -1 \/ i <= indexOf_from pat s i.
Proof.
  revert i. induction s as [|ch s IH]; intros i Hi; cbn [indexOf_from].
  - destruct (String.prefix pat ""); [right; lia|now left].
  - destruct (String.prefix pat (String ch s)); [right; lia|].
    destruct (IH (i + 1)) as [H|H]; [lia|now left|right; lia].
Qed.

Lemma indexOf_zero_iff s pat : indexOf s pat = 0 <-> String.prefix pat s = true.
Proof.
  unfold indexOf. destruct s as [|ch s]; cbn [indexOf_from].
  - destruct (String.prefix pat ""); split; (reflexivity || discriminate).
  - destruct (String.prefix pat (String ch s)); split; try reflexivity; try discriminate.
    intros H. destruct (indexOf_from_range pat s (0 + 1)) as [E|E]; lia.
Qed.

Lemma error_marker_test text :
  (indexOf text "ERROR" =? 0) = String.prefix "ERROR" text.
Proof.
  destruct (String.prefix "ERROR" text) eqn:E.
  - apply Z.eqb_eq. now apply indexOf_zero_iff.
  - apply Z.eqb_neq. intros H. apply indexOf_zero_iff in H. congruence.
Qed.

(** X11.  The callback throws in one situation only: the response is
    complete (ready state 4), its status is 200 and its text begins with
    [ERROR]; the marker anywhere else in the text does not count.  What it
    throws is the response text. *)
Theorem X11_callback_throws_iff env xhr w :
  ((exists e, snd (VoiceRSS.onreadystatechange env xhr w) = inl e) <->
   VoiceRSS.readyState xhr = 4 /\ VoiceRSS.status xhr = 200 /\
   String.prefix "ERROR" (VoiceRSS.responseText xhr) = true) /\
  (forall e, snd (VoiceRSS.onreadystatechange env xhr w) = inl e ->
             e = Error (VoiceRSS.responseText xhr)).
Proof.
  unfold VoiceRSS.onreadystatechange. rewrite error_marker_test.
  cbv beta iota zeta delta
    [bind ret throw getElementById_audio set_audio_src audio_play console_error].
  destruct (Z.eqb_spec (VoiceRSS.readyState xhr) 4) as [Hr|Hr].
  2:{ cbn. split; [split|]; [intros [e H]; discriminate H|tauto|discriminate]. }
  destruct (Z.eqb_spec (VoiceRSS.status xhr) 200) as [Hs|Hs].
  2:{ cbn. split; [split|]; [intros [e H]; discriminate H|tauto|discriminate]. }
  destruct (String.prefix "ERROR" (VoiceRSS.responseText xhr)).
  { cbn. split; [split|]; [auto|eauto|congruence]. }
  destruct (audio w); [destruct (play_rejects env)|]; cbn;
    (split; [split|]; [intros [e H]; discriminate H|intros (_ & _ & H); discriminate H
                      |discriminate]).
Qed.

(** The marker later in the text is taken for audio. *)
Example marker_not_at_start :
  VoiceRSS.onreadystatechange (browser "probably" true)
    (VoiceRSS.mkXhrState 4 200 "data:ERROR") page0
  = (mkWorld false "" (Some (mkAudio "data:ERROR" 1)) [] [] [] [], inr tt).
Proof. reflexivity. Qed.

(** X12.  On a complete 200 response without the marker, with the audio
    element in the page, the callback assigns the whole response text to
    the element's source and calls [play] once; a rejected [play] only adds
    a console entry with its reason.  Nothing else changes and the callback
    returns normally. *)
Theorem X12_audio_assigned_and_played env xhr w a :
  VoiceRSS.readyState xhr = 4 -> VoiceRSS.status xhr = 200 ->
  String.prefix "ERROR" (VoiceRSS.responseText xhr) = false ->
  audio w = Some a ->
  VoiceRSS.onreadystatechange env xhr w
  = (mkWorld (disabled w) (textContent w)
       (Some (mkAudio (VoiceRSS.responseText xhr) (S (play_count a))))
       (alerts w)
       (console w ++ match play_rejects env with
                     | Some err => [["Audio playback failed:"; err]]
                     | None => []
                     end)
       (network w) (probes w),
     inr tt).
Proof.
  intros Hr Hs Hp Ha. unfold VoiceRSS.onreadystatechange.
  rewrite error_marker_test, Hr, Hs, Hp.
  cbv beta iota zeta delta
    [bind ret throw getElementById_audio set_audio_src audio_play console_error Z.eqb Pos.eqb].
  rewrite Ha.
  cbn [disabled textContent audio alerts console network probes].
  rewrite Ha.
  destruct (play_rejects env);
    cbn [disabled textContent audio alerts console network probes
         option_map audio_src play_count];
    [reflexivity|].
  now rewrite app_nil_r.
Qed.

Lemma X12_witness :
  (VoiceRSS.readyState (VoiceRSS.mkXhrState 4 200 "data:audio/wav;base64,UklG") = 4 /\
   VoiceRSS.status (VoiceRSS.mkXhrState 4 200 "data:audio/wav;base64,UklG") = 200 /\
   String.prefix "ERROR" "data:audio/wav;base64,UklG" = false /\
   audio page0 = Some (mkAudio "" 0)) /\
  VoiceRSS.onreadystatechange ogg_browser
    (VoiceRSS.mkXhrState 4 200 "data:audio/wav;base64,UklG") page0
  = (mkWorld false "" (Some (mkAudio "data:audio/wav;base64,UklG" 1)) []
       [["Audio playback failed:"; "NotAllowedError"]] [] [],
     inr tt).
Proof.
  split; [repeat split|].
  exact (X12_audio_assigned_and_played ogg_browser
           (VoiceRSS.mkXhrState 4 200 "data:audio/wav;base64,UklG") page0 (mkAudio "" 0)
           eq_refl eq_refl eq_refl eq_refl).
Defined.

(** X13.  The other paths of the callback only log, or do nothing, and
    never throw: an incomplete response changes nothing; a complete
    response with a status other than 200 adds one console entry carrying
    the status; a complete 200 response without the marker, in a page with
    no audio element, adds one console entry saying so. *)
Theorem X13_callback_quiet_paths env xhr w :
  (VoiceRSS.readyState xhr <> 4 ->
   VoiceRSS.onreadystatechange env xhr w = (w, inr tt)) /\
  (VoiceRSS.readyState xhr = 4 -> VoiceRSS.status xhr <> 200 ->
   VoiceRSS.onreadystatechange env xhr w
   = (add_console ["HTTP request failed with status"; number_to_string (VoiceRSS.status xhr)] w,
      inr tt)) /\
  (VoiceRSS.readyState xhr = 4 -> VoiceRSS.status xhr = 200 ->
   String.prefix "ERROR" (VoiceRSS.responseText xhr) = false -> audio w = None ->
   VoiceRSS.onreadystatechange env xhr w
   = (add_console ["Audio element not found in the DOM."] w, inr tt)).
Proof.
  unfold VoiceRSS.onreadystatechange. rewrite error_marker_test.
  split; [|split].
  - intros H. apply Z.eqb_neq in H. now rewrite H.
  - intros -> H. apply Z.eqb_neq in H. now rewrite H.
  - intros -> -> -> Ha.
    cbv beta iota zeta delta [bind ret throw getElementById_audio Z.eqb Pos.eqb].
    now rewrite Ha.
Qed.

(** X14.  The callback never sends a request and never asks a capability
    question, whatever the response: there is no retry, and a failed
    request is simply over. *)
Theorem X14_callback_sends_nothing env xhr w :
  network (fst (VoiceRSS.onreadystatechange env xhr w)) = network w /\
  probes (fst (VoiceRSS.onreadystatechange env xhr w)) = probes w.
Proof.
  unfold VoiceRSS.onreadystatechange.
  cbv beta iota zeta delta
    [bind ret throw getElementById_audio set_audio_src audio_play console_error].
  destruct (VoiceRSS.readyState xhr =? 4); [|split; reflexivity].
  destruct (VoiceRSS.status xhr =? 200); [|split; reflexivity].
  destruct (indexOf (VoiceRSS.responseText xhr) "ERROR" =? 0); [split; reflexivity|].
  destruct (audio w); [|split; reflexivity].
  destruct (play_rejects env); split; reflexivity.
Qed.

(** ** Fetching the joke *)

(** X15.  [fetchJoke] sends exactly one GET to the joke API, asking for
    JSON.  When the fetch settles with a joke it returns that value and
    logs nothing; when it fails, for whatever reason, it logs the reason
    and throws the same fixed error, so the reason never travels further
    than the console. *)
Theorem X15_fetch_joke_outcomes env w :
  (forall joke, joke_api env = Fulfilled joke ->
                fetchJoke env w = (add_request joke_get w, inr joke)) /\
  (forall reason, joke_api env = Rejected reason ->
                  fetchJoke env w
                  = (add_console ["Error fetching joke:"; message reason]
                       (add_request joke_get w),
                     inl (Error "Failed to fetch a joke."))).
Proof.
  split; intros x Hx;
    cbv beta iota zeta delta
      [fetchJoke fetch_joke_field try_catch bind ret throw send_request console_error];
    now rewrite Hx.
Qed.

Lemma fetchJoke_rejected env reason w :
  joke_api env = Rejected reason ->
  fetchJoke env w
  = (add_console ["Error fetching joke:"; message reason] (add_request joke_get w),
     inl (Error "Failed to fetch a joke.")).
Proof.
  intros Hj.
  cbv beta iota zeta delta
    [fetchJoke fetch_joke_field try_catch bind ret throw send_request console_error].
  now rewrite Hj.
Qed.

Lemma click_rejected env reason w :
  joke_api env = Rejected reason ->
  handleJokeButtonClick env w
  = (mkWorld false "" (audio w) (alerts w ++ [sorry_notice])
       (console w ++ [["Error fetching joke:"; message reason];
                      ["Error processing the joke:"; "Failed to fetch a joke."]])
       (network w ++ [joke_get]) (probes w),
     inr tt).
Proof.
  intros Hj. unfold handleJokeButtonClick, try_finally, try_catch, bind.
  cbv beta iota delta [set_disabled set_textContent].
  rewrite (fetchJoke_rejected env reason _ Hj).
  cbv beta iota delta [console_error alert set_textContent set_disabled add_console add_request].
  cbn [disabled textContent audio alerts console network probes message text_of ToString].
  now rewrite <- app_assoc.
Qed.

Lemma click_fulfilled_run env joke w :
  joke_api env = Fulfilled joke ->
  (speech_ok env (joke_settings joke) = true /\
   exists ps,
     handleJokeButtonClick env w
     = (mkWorld false (text_of joke) (audio w) (alerts w) (console w)
          (network w ++ [joke_get; speech_post (form_body (joke_settings joke) "mp3")])
          (probes w ++ ps),
        inr tt)) \/
  (speech_ok env (joke_settings joke) = false /\
   exists ps e,
     handleJokeButtonClick env w
     = (mkWorld false "" (audio w) (alerts w ++ [sorry_notice])
          (console w ++ [["Error processing the joke:"; message e]])
          (network w ++ [joke_get]) (probes w ++ ps),
        inr tt)).
Proof.
  intros Hj.
  cbv beta iota zeta delta
    [handleJokeButtonClick fetchJoke fetch_joke_field try_finally try_catch bind ret throw
     set_disabled set_textContent send_request].
  rewrite Hj. cbv beta iota.
  match goal with
  | |- context [VoiceRSS.speech env ?s ?W] =>
      destruct (speech_cases env (joke_settings joke) W)
        as [(Hok & ps & e & Hrun) | (Hok & ps & Hrun)]
  end; rewrite Hrun, Hok; [right|left]; (split; [reflexivity|]).
  - exists ps, e. cbn. reflexivity.
  - exists ps. cbn. now rewrite <- app_assoc.
Qed.

(** X16.  When the joke cannot be fetched, a click ends with the button
    enabled, the text cleared and the generic notice shown once; the
    console holds the reason and the handler's own entry; the one GET is
    the only traffic, so the speech API is never contacted, and neither the
    audio element nor the capability probe is touched. *)
Theorem X16_click_when_fetch_fails env reason w :
  joke_api env = Rejected reason ->
  handleJokeButtonClick env w
  = (mkWorld false "" (audio w) (alerts w ++ [sorry_notice])
       (console w ++ [["Error fetching joke:"; message reason];
                      ["Error processing the joke:"; "Failed to fetch a joke."]])
       (network w ++ [joke_get]) (probes w),
     inr tt) /\
  (forall rq, In rq (network (fst (handleJokeButtonClick env w))) ->
              In rq (network w) \/ rq = joke_get).
Proof.
  intros Hj. rewrite (click_rejected env reason w Hj). split; [reflexivity|].
  intros rq Hin. cbn [fst network] in Hin. apply in_app_or in Hin as [Hin|[<-|[]]]; auto.
Qed.

Lemma X16_witness :
  joke_api legacy_browser = Rejected (TypeError "Failed to fetch") /\
  handleJokeButtonClick legacy_browser page0
  = (mkWorld false "" (Some (mkAudio "" 0)) [sorry_notice]
       [["Error fetching joke:"; "Failed to fetch"];
        ["Error processing the joke:"; "Failed to fetch a joke."]]
       [joke_get] [],
     inr tt).
Proof.
  split; [reflexivity|].
  exact (proj1 (X16_click_when_fetch_fails legacy_browser (TypeError "Failed to fetch")
                  page0 eq_refl)).
Defined.

Lemma text_of_truthy v : truthy v = true -> text_of v = ToString v /\ field_text v = ToString v.
Proof.
  intros H. unfold field_text, js_or. rewrite H.
  destruct v; try discriminate H; split; reflexivity.
Qed.

(** X17.  When the joke arrives and [speech] goes through (joke text
    truthy and free of unpaired surrogates, mp3 playable, a request object
    to be had), the click sends the GET and then one POST whose fields
    decode to the fixed configuration of the handler, with [src] the very
    text now displayed, [c] mp3 and an empty rate; no alert is shown,
    nothing is logged and the audio element is not touched by the click
    itself.  A numeric joke is taken in the safe integers. *)
Theorem X17_click_speaks_what_it_shows env joke w :
  joke_api env = Fulfilled joke -> speech_ok env (joke_settings joke) = true ->
  safe_value joke ->
  exists ps body,
    handleJokeButtonClick env w
    = (mkWorld false (ToString joke) (audio w) (alerts w) (console w)
         (network w ++ [joke_get; speech_post body]) (probes w ++ ps),
       inr tt) /\
    map (fun nv => (fst nv, pct_decode (snd nv))) (parse_form body)
    = [("key", Some "YOUR API"); ("src", Some (ToString joke)); ("hl", Some "en-us");
       ("r", Some ""); ("c", Some "mp3"); ("f", Some "44khz_16bit_stereo");
       ("ssml", Some ""); ("b64", Some "true")].
Proof.
  intros Hj Hok _.
  assert (Ht : truthy joke = true).
  { rewrite speech_ok_joke in Hok. apply andb_true_iff in Hok as [Hok _].
    apply andb_true_iff in Hok as [Hok _].
    now apply andb_true_iff in Hok as [Hok _]. }
  destruct (text_of_truthy joke Ht) as [Htx Hft].
  destruct (click_fulfilled_run env joke w Hj) as [(_ & ps & Hrun) | (Hno & _)];
    [|congruence].
  exists ps, (form_body (joke_settings joke) "mp3"). split.
  - rewrite Hrun, Htx. reflexivity.
  - rewrite parse_form_body. cbn [map fst snd VoiceRSS.key VoiceRSS.src VoiceRSS.hl
                                   VoiceRSS.r VoiceRSS.f VoiceRSS.ssml joke_settings].
    rewrite !pct_decode_encode, Hft. reflexivity.
Qed.

Lemma X17_witness :
  (joke_api mp3_browser = Fulfilled (VStr "Knock & knock = who?") /\
   speech_ok mp3_browser (joke_settings (VStr "Knock & knock = who?")) = true /\
   safe_value (VStr "Knock & knock = who?")) /\
  exists ps body,
    handleJokeButtonClick mp3_browser page0
    = (mkWorld false "Knock & knock = who?" (audio page0) (alerts page0) (console page0)
         (network page0 ++ [joke_get; speech_post body]) (probes page0 ++ ps),
       inr tt) /\
    map (fun nv => (fst nv, pct_decode (snd nv))) (parse_form body)
    = [("key", Some "YOUR API"); ("src", Some "Knock & knock = who?"); ("hl", Some "en-us");
       ("r", Some ""); ("c", Some "mp3"); ("f", Some "44khz_16bit_stereo");
       ("ssml", Some ""); ("b64", Some "true")].
Proof.
  split; [repeat split; reflexivity|].
  exact (X17_click_speaks_what_it_shows mp3_browser
           (VStr "Knock & knock = who?") page0 eq_refl eq_refl I).
Defined.

(** X18.  Every click, however it ends, sends the GET to the joke API
    first and after it at most one request, a POST to the speech API; it
    never touches the audio element; it shows either no alert or the
    generic notice once, and with the notice the text is cleared; the text
    it leaves does not depend on what the page showed before. *)
Theorem X18_click_footprint env w :
  let w' := fst (handleJokeButtonClick env w) in
  audio w' = audio w /\
  (network w' = (network w ++ [joke_get])%list \/
   exists body, network w' = (network w ++ [joke_get; speech_post body])%list) /\
  ((alerts w' = alerts w /\ exists body,
       network w' = (network w ++ [joke_get; speech_post body])%list) \/
   (alerts w' = (alerts w ++ [sorry_notice])%list /\ textContent w' = "" /\
    network w' = (network w ++ [joke_get])%list)) /\
  (forall w0, textContent (fst (handleJokeButtonClick env w0)) = textContent w').
Proof.
  destruct (joke_api env) as [joke|reason] eqn:Hj.
  - assert (Htext : forall w0, textContent (fst (handleJokeButtonClick env w0))
                               = if speech_ok env (joke_settings joke)
                                 then text_of joke else "").
    { intros w0. destruct (click_fulfilled_run env joke w0 Hj)
        as [(Hok & ps & Hrun) | (Hok & ps & e & Hrun)]; now rewrite Hrun, Hok. }
    cbv zeta. split; [|split; [|split]].
    + destruct (click_fulfilled_run env joke w Hj)
        as [(_ & ps & Hrun) | (_ & ps & e & Hrun)]; now rewrite Hrun.
    + destruct (click_fulfilled_run env joke w Hj)
        as [(_ & ps & Hrun) | (_ & ps & e & Hrun)]; rewrite Hrun; cbn; eauto.
    + destruct (click_fulfilled_run env joke w Hj)
        as [(_ & ps & Hrun) | (_ & ps & e & Hrun)]; rewrite Hrun; cbn; eauto.
    + intros w0. now rewrite !Htext.
  - cbv zeta. rewrite (click_rejected env reason w Hj). cbn.
    split; [reflexivity|]. split; [now left|]. split; [right; auto|].
    intros w0. now rewrite (click_rejected env reason w0 Hj).
Qed.

(** ** Letter case of the codec, and how [speech] composes *)

Lemma validate_accepts_bool env s w :
  snd (VoiceRSS._validate env (Some s) w) = inr tt <->
  required_ok s
  && match codec_request (VoiceRSS.c s) with
     | Some (Some name) => supports env name
     | Some None => true
     | None => false
     end = true.
Proof.
  destruct (required_ok s) eqn:Hr; cbn [andb].
  2:{ destruct (validate_missing env s w Hr) as (e & _ & Hv). rewrite Hv.
      split; discriminate. }
  destruct (codec_request (VoiceRSS.c s)) as [[name|]|] eqn:E.
  - apply codec_request_explicit in E.
    destruct (validate_explicit env s name w Hr E) as [ps Hv]. rewrite Hv.
    destruct (supports env name); split; (reflexivity || discriminate).
  - rewrite (validate_auto env s w Hr E). split; reflexivity.
  - destruct (validate_ill_typed env s w Hr E) as [msg Hv]. rewrite Hv.
    split; discriminate.
Qed.

Lemma lower_empty name : (lower name =? "")%string = (name =? "")%string.
Proof. destruct name; reflexivity. Qed.

Lemma codec_request_lower env name name' :
  lower name = lower name' ->
  match codec_request (VStr name) with
  | Some (Some n) => supports env n
  | Some None => true
  | None => false
  end
  = match codec_request (VStr name') with
    | Some (Some n) => supports env n
    | Some None => true
    | None => false
    end.
Proof.
  intros H. cbn [codec_request].
  rewrite <- (lower_empty name), <- (lower_empty name'), H.
  destruct ((lower name' =? "")%string || (lower name' =? "auto")%string); [reflexivity|].
  unfold supports. now rewrite H.
Qed.

(** X19.  Validation reads the codec name without regard to letter case:
    two settings that agree on the required fields and whose codec names
    are equal in lower case are accepted or refused alike. *)
Theorem X19_codec_names_are_case_insensitive env s s' name name' w :
  VoiceRSS.c s = VStr name -> VoiceRSS.c s' = VStr name' ->
  lower name = lower name' -> required_ok s = required_ok s' ->
  (snd (VoiceRSS._validate env (Some s) w) = inr tt <->
   snd (VoiceRSS._validate env (Some s') w) = inr tt).
Proof.
  intros Hc Hc' Hl Hr. rewrite !validate_accepts_bool, Hc, Hc', Hr.
  now rewrite (codec_request_lower env name name' Hl).
Qed.

Lemma X19_witness :
  (VoiceRSS.c (settings_with_codec (VStr "OGG")) = VStr "OGG" /\
   VoiceRSS.c (settings_with_codec (VStr "ogg")) = VStr "ogg" /\
   lower "OGG" = lower "ogg" /\
   required_ok (settings_with_codec (VStr "OGG"))
   = required_ok (settings_with_codec (VStr "ogg"))) /\
  (snd (VoiceRSS._validate ogg_browser (Some (settings_with_codec (VStr "OGG"))) page0)
   = inr tt <->
   snd (VoiceRSS._validate ogg_browser (Some (settings_with_codec (VStr "ogg"))) page0)
   = inr tt).
Proof.
  split; [repeat split|].
  exact (X19_codec_names_are_case_insensitive ogg_browser
           (settings_with_codec (VStr "OGG")) (settings_with_codec (VStr "ogg"))
           "OGG" "ogg" page0 eq_refl eq_refl eq_refl eq_refl).
Defined.

(** X20.  [speech] returns normally exactly when validation accepts the
    settings, every text of the settings can be encoded and the browser can
    create a request object.  Settings that validation accepted but whose
    text holds an unpaired surrogate end in the [URIError] of
    [encodeURIComponent], thrown while the body is built, with nothing
    sent. *)
Theorem X20_speech_returns_iff env s w :
  (snd (VoiceRSS.speech env (Some s) w) = inr tt <->
   snd (VoiceRSS._validate env (Some s) w) = inr tt /\ texts_encodable s = true /\
   xhr_available env = true) /\
  (snd (VoiceRSS._validate env (Some s) w) = inr tt -> texts_encodable s = false ->
   exists w', VoiceRSS.speech env (Some s) w = (w', inl (URIError "URI malformed")) /\
              network w' = network w).
Proof.
  assert (Hacc : snd (VoiceRSS._validate env (Some s) w) = inr tt ->
                 body_encodable env s = texts_encodable s /\
                 exists ps,
                   VoiceRSS.speech env (Some s) w
                   = if body_encodable env s then
                       if xhr_available env
                       then (add_request (speech_post (form_body s (decided_codec env s)))
                               (add_probes ps w), inr tt)
                       else (add_probes ps w,
                             inl (Error "The browser does not support HTTP request"))
                     else (add_probes ps w, inl (URIError "URI malformed"))).
  { intros Hv. destruct (VoiceRSS._validate env (Some s) w) as [w1 res] eqn:E.
    cbn in Hv. subst res.
    destruct (validate_passes_inv env s w w1 E) as (Hr & Hc & Hsup & _).
    split; [exact (accepted_body_encodable env s Hc Hsup)|].
    exact (speech_runs env s w Hr Hc Hsup). }
  split.
  - split.
    + intros Hrun.
      destruct (speech_cases env s w) as [(Hok & ps & e & Hs) | (Hok & ps & Hs)].
      { rewrite Hs in Hrun. discriminate Hrun. }
      unfold speech_ok in Hok.
      apply andb_true_iff in Hok as [Hok Hx]. apply andb_true_iff in Hok as [Hok He].
      assert (Hv : snd (VoiceRSS._validate env (Some s) w) = inr tt)
        by now apply validate_accepts_bool.
      destruct (Hacc Hv) as (Heq & _). rewrite Heq in He. auto.
    + intros (Hv & He & Hx). destruct (Hacc Hv) as (Heq & ps & Hs).
      now rewrite Hs, Heq, He, Hx.
  - intros Hv He. destruct (Hacc Hv) as (Heq & ps & Hs).
    rewrite Heq, He in Hs. eexists. split; [exact Hs|reflexivity].
Qed.
